(** * Finance GPT: the retrieval-augmented answer pipeline

    A shallow embedding of the query path ([frontend/rag/utils.py],
    [frontend/rag/llm_chain.py], [frontend/rag/rag_pipeline.py],
    [frontend/rag/error_handling.py]) and of the ingestion path
    ([frontend/rag/vector_search.py]), with the scraper that feeds it
    ([frontend/rag/document_retriever.py]) and the input checks of the
    user interface ([frontend/utils/validators.py]).

    Modelling decisions, valid for the whole development:
    - Python [str] is an ASCII [string]; [lower], [upper], [split] and the
      two regular expressions are written out for ASCII text.
    - Python [float] is an exact rational [Q]; rounding is not modelled.
    - Python [dict] is a [gmap string pyval]; a mutable dict lives in a heap
      of dicts and is passed around by reference.
    - [list(set(...))] is stdpp's [elements]; Python leaves that order
      unspecified, so the theorems speak about it only up to set equality.
    - External services (vector index, completion chain) are functions of
      their request that either raise or return; every call is recorded in
      a trace.  Console output ([print]) is not modelled. *)

From Stdlib Require Import Ascii QArith Qminmax Lqa.
From stdpp Require Import gmap strings list fin_maps sorting pretty.

Local Set Warnings "-register-all".
Local Open Scope string_scope.

(** ** Python string methods on ASCII text *)

Module PyStr.

Definition is_upper (c : ascii) : bool :=
  (Ascii.leb "A" c && Ascii.leb c "Z")%char.

Definition is_lower (c : ascii) : bool :=
  (Ascii.leb "a" c && Ascii.leb c "z")%char.

Definition is_digit (c : ascii) : bool :=
  (Ascii.leb "0" c && Ascii.leb c "9")%char.

(** The class [\w] of [re]: letters, digits and the underscore. *)
Definition is_word (c : ascii) : bool :=
  is_upper c || is_lower c || is_digit c || Ascii.eqb c "_".

(** [str.isspace] on one character: tab, line feed, vertical tab, form
    feed, carriage return, the four separators 0x1c-0x1f and the space. *)
Definition is_space (c : ascii) : bool :=
  let n := N_of_ascii c in
  ((9 <=? n) && (n <=? 13) || (28 <=? n) && (n <=? 32))%N.

Definition lower_char (c : ascii) : ascii :=
  if is_upper c then ascii_of_N (N_of_ascii c + 32) else c.

Definition upper_char (c : ascii) : ascii :=
  if is_lower c then ascii_of_N (N_of_ascii c - 32) else c.

Fixpoint map_chars (f : ascii → ascii) (s : string) : string :=
  match s with
  | EmptyString => EmptyString
  | String c s' => String (f c) (map_chars f s')
  end.

Definition lower : string → string := map_chars lower_char.
Definition upper : string → string := map_chars upper_char.

(** [s.split()]: the maximal runs of non-whitespace characters. *)
Fixpoint split_go (cur : option string) (s : string) : list string :=
  match s with
  | EmptyString =>
      match cur with Some w => [String.rev w] | None => [] end
  | String c s' =>
      if is_space c then
        match cur with
        | Some w => String.rev w :: split_go None s'
        | None => split_go None s'
        end
      else
        match cur with
        | Some w => split_go (Some (String c w)) s'
        | None => split_go (Some (String c EmptyString)) s'
        end
  end.

Definition split : string → list string := split_go None.

Fixpoint lstrip (s : string) : string :=
  match s with
  | String c s' => if is_space c then lstrip s' else s
  | EmptyString => EmptyString
  end.

Definition strip (s : string) : string :=
  String.rev (lstrip (String.rev (lstrip s))).

Fixpoint drop (n : nat) (s : string) : string :=
  match n, s with
  | S n', String _ s' => drop n' s'
  | _, _ => s
  end.

(** [sub in s] *)
Fixpoint contains (sub s : string) : bool :=
  String.prefix sub s ||
  match s with
  | EmptyString => false
  | String _ s' => contains sub s'
  end.

(** [s.split(sep)] for a non-empty [sep].  [skip] counts the characters
    of a separator just recognised that are still to be passed over;
    [cur] is the current piece, reversed. *)
Fixpoint split_sep_go (sep : string) (skip : nat) (cur : string) (s : string)
  : list string :=
  match s with
  | EmptyString => [String.rev cur]
  | String c s' =>
      match skip with
      | S k => split_sep_go sep k cur s'
      | O =>
          if String.prefix sep s
          then String.rev cur
                 :: split_sep_go sep (String.length sep - 1) EmptyString s'
          else split_sep_go sep 0 (String c cur) s'
      end
  end.

Definition split_sep (sep s : string) : list string :=
  split_sep_go sep 0 EmptyString s.

(** [sep.join(l)] *)
Definition join (sep : string) (l : list string) : string :=
  String.concat sep l.

(** [s.replace(old, new)] for a non-empty [old]. *)
Definition replace (old new s : string) : string :=
  join new (split_sep old s).

(** *** The two regular expressions of [utils.py] *)

(** Length of the run of upper-case letters at the start of [s], counted
    up to [n]: what the greedy [[A-Z]{1,n}] consumes first. *)
Fixpoint upper_run (n : nat) (s : string) : nat :=
  match n, s with
  | S n', String c s' => if is_upper c then S (upper_run n' s') else 0
  | _, _ => 0
  end.

(** [\b] right after a word character: the text ends or a non-word
    character follows. *)
Definition boundary_after_word (s : string) : bool :=
  match s with
  | EmptyString => true
  | String c _ => negb (is_word c)
  end.

(** Backtracking of [[A-Z]{1,5}\b] anchored at the start of [s]: the
    longest length [k], from [n] down to 1, after which [\b] holds. *)
Fixpoint longest_bounded (n : nat) (s : string) : option nat :=
  match n with
  | O => None
  | S n' =>
      if boundary_after_word (drop n s) then Some n
      else longest_bounded n' s
  end.

Definition match_ticker_token (s : string) : option nat :=
  longest_bounded (upper_run 5 s) s.

(** [\b] before the character [c] when the previous character is [prev]
    ([None] at the start of the text) and [c] is a word character. *)
Definition boundary_before (prev : option ascii) : bool :=
  match prev with
  | None => true
  | Some p => negb (is_word p)
  end.

Fixpoint take (n : nat) (s : string) : string :=
  match n, s with
  | S n', String c s' => String c (take n' s')
  | _, _ => EmptyString
  end.

(** [re.findall(r"\b[A-Z]{1,5}\b", s)]: scan from the left; at a position
    where a match starts, emit it and resume right after it. *)
Fixpoint findall_go (prev : option ascii) (skip : nat) (s : string)
  : list string :=
  match s with
  | EmptyString => []
  | String c s' =>
      match skip with
      | S k => findall_go (Some c) k s'
      | O =>
          if boundary_before prev then
            match match_ticker_token s with
            | Some k => take k s :: findall_go (Some c) (k - 1) s'
            | None => findall_go (Some c) 0 s'
            end
          else findall_go (Some c) 0 s'
      end
  end.

Definition findall_ticker (s : string) : list string :=
  findall_go None 0 s.

(** [re.search(r"\$[A-Z]{1,5}\b", s)] as a truth value. *)
Fixpoint search_dollar_ticker (s : string) : bool :=
  match s with
  | EmptyString => false
  | String c s' =>
      (Ascii.eqb c "$" && bool_decide (is_Some (match_ticker_token s')))
      || search_dollar_ticker s'
  end.

End PyStr.

(** ** Python values, exceptions and the state-and-exception monad *)

Inductive pyval : Type :=
| VNone
| VStr (s : string)
| VInt (z : Z)
| VFloat (q : Q)
| VList (l : list pyval)
| VDict (d : gmap string pyval).

(** The exception classes of [error_handling.py], the built-in ones the
    modelled code can raise, and any other class by name. *)
Inductive exn_class : Type :=
| FinanceGPTError
| TickerExtractionError
| FinnhubAPIError
| VectorStoreError
| LLMError
| MongoDBError
| AttributeError
| KeyError
| ValidationError
| OtherException (name : string).

Record exn : Type := Exn { exn_cls : exn_class; exn_msg : string }.

(** A computation over a mutable state [St] that returns or raises. *)
Definition M (St A : Type) : Type := St → (exn + A) * St.

Definition ret {St A} (a : A) : M St A := λ s, (inr a, s).

Definition raise {St A} (e : exn) : M St A := λ s, (inl e, s).

Definition bind {St A B} (m : M St A) (k : A → M St B) : M St B :=
  λ s, match m s with
       | (inr a, s') => k a s'
       | (inl e, s') => (inl e, s')
       end.

(** [try: body except Exception as e: handler(e)]; the state changes made
    by [body] before it raised stay. *)
Definition try_except {St A} (body : M St A) (handler : exn → M St A) : M St A :=
  λ s, match body s with
       | (inr a, s') => (inr a, s')
       | (inl e, s') => handler e s'
       end.

Definition get_state {St} : M St St := λ s, (inr s, s).

Definition modify_state {St} (f : St → St) : M St unit := λ s, (inr tt, f s).

(** A pure step that may raise. *)
Definition lift {St A} (r : exn + A) : M St A :=
  match r with
  | inl e => raise e
  | inr a => ret a
  end.

#[global] Instance M_ret {St} : MRet (M St) := λ A, ret.
#[global] Instance M_bind {St} : MBind (M St) := λ A B k m, bind m k.

(** ** The data model of [model.py] *)

Record NewsItem : Type := {
  ni_headline : string;
  ni_summary : string;
  ni_ticker : string;
  ni_source : string;
  ni_relevance_score : option Q;
  ni_date : option string;
}.

Record FinancialAnswer : Type := {
  fa_summary : string;
  fa_key_insights : list string;
  fa_top_news : list NewsItem;
  fa_mentioned_tickers : list string;
  fa_sentiment : option string;
  fa_confidence_score : option Q;
  fa_market_outlook : option string;
}.

Record TickerExtractionResult : Type := {
  te_tickers : list string;
  te_confidence : Q;
  te_query_type : string;
}.

Record DocumentModel : Type := {
  dm_category : string;
  dm_datetime : Z;
  dm_headline : string;
  dm_id : Z;
  dm_image : option string;
  dm_related : string;
  dm_source : string;
  dm_summary : string;
  dm_url : string;
  dm_ticker : string;
  dm_date : string;
}.

(** A langchain [Document]: text, metadata written by [store_documents]
    (string valued), and the optional [relevance_score] attribute read
    with [getattr]. *)
Record Document : Type := {
  page_content : string;
  metadata : gmap string string;
  doc_relevance_score : option Q;
}.

(** ** [utils.py]: ticker extraction *)

Definition COMMON_TICKERS : gset string :=
  list_to_set
    [ "AAPL"; "MSFT"; "GOOGL"; "GOOG"; "AMZN"; "TSLA"; "META"; "NVDA";
      "BRK.A"; "BRK.B"; "JPM"; "JNJ"; "V"; "PG"; "UNH"; "HD"; "MA"; "BAC";
      "ABBV"; "PFE"; "KO"; "AVGO"; "PEP"; "TMO"; "COST"; "DIS"; "ABT";
      "DHR"; "VZ"; "ADBE"; "NFLX"; "XOM"; "WMT"; "CRM"; "LLY"; "ORCL";
      "ACN"; "CVX"; "MRK"; "QCOM"; "TXN"; "AMD"; "HON"; "NKE"; "IBM";
      "INTC"; "BA"; "GS"; "CAT"; "AMGN"; "SBUX"; "INTU"; "BKNG"; "ISRG" ].

(** The members of the set [FINANCIAL_KEYWORDS], each listed once. *)
Definition FINANCIAL_KEYWORDS : list string :=
  [ "stock"; "stocks"; "market"; "trading"; "investment"; "portfolio";
    "earnings"; "revenue"; "profit"; "loss"; "dividend"; "shares"; "price";
    "valuation"; "bull"; "bear"; "volatility"; "analysis"; "forecast";
    "outlook" ].

Definition company_mappings : list (string * string) :=
  [ ("APPLE", "AAPL"); ("MICROSOFT", "MSFT"); ("GOOGLE", "GOOGL");
    ("ALPHABET", "GOOGL"); ("AMAZON", "AMZN"); ("TESLA", "TSLA");
    ("META", "META"); ("FACEBOOK", "META"); ("NVIDIA", "NVDA");
    ("BERKSHIRE", "BRK.A"); ("JPMORGAN", "JPM"); ("JOHNSON", "JNJ");
    ("VISA", "V"); ("PROCTER", "PG"); ("GAMBLE", "PG"); ("NETFLIX", "NFLX");
    ("DISNEY", "DIS"); ("WALMART", "WMT"); ("COCA", "KO"); ("COLA", "KO");
    ("INTEL", "INTC"); ("BOEING", "BA"); ("GOLDMAN", "GS"); ("SACHS", "GS");
    ("STARBUCKS", "SBUX"); ("ADOBE", "ADBE") ].

(** [any(term in text for term in terms)] *)
Definition any_in (terms : list string) (text : string) : bool :=
  existsb (λ term, PyStr.contains term text) terms.

Definition determine_query_type (query : string) (tickers : gset string) : string :=
  let query_lower := PyStr.lower query in
  if bool_decide (tickers ≠ ∅) && (size tickers =? 1)%nat then "stock_specific"
  else if bool_decide (tickers ≠ ∅) && (1 <? size tickers)%nat
  then "multi_stock_comparison"
  else if any_in ["market"; "economy"; "sector"; "industry"; "overall"; "general"]
            query_lower
  then "market_general"
  else if any_in ["news"; "latest"; "recent"; "update"; "announcement"] query_lower
  then "news_request"
  else if any_in ["analyze"; "analysis"; "forecast"; "predict"; "outlook"]
            query_lower
  then "analysis_request"
  else if any_in ["invest"; "buy"; "sell"; "portfolio"; "recommend"] query_lower
  then "investment_advice"
  else "general_financial".

(** [sum(1 for keyword in FINANCIAL_KEYWORDS if keyword in query_lower)] *)
Definition financial_word_count (query_lower : string) : nat :=
  length (filter (λ keyword, PyStr.contains keyword query_lower = true)
            FINANCIAL_KEYWORDS).

Definition Qnat (n : nat) : Q := inject_Z (Z.of_nat n).

Definition calculate_extraction_confidence (query : string) (tickers : gset string)
  : Q :=
  (let confidence := 0.0 in
   let confidence :=
     if bool_decide (tickers ≠ ∅) then
       let confidence := confidence + 0.4 in
       if (1 <? size tickers)%nat then confidence + 0.2 else confidence
     else confidence in
   let query_lower := PyStr.lower query in
   let financial_word_count := financial_word_count query_lower in
   let confidence := confidence + Qmin (Qnat financial_word_count * 0.1) 0.3 in
   let confidence :=
     if PyStr.search_dollar_ticker query then confidence + 0.2 else confidence in
   Qmin confidence 1.0)%Q.

Definition extract_tickers_from_query (query : string) : TickerExtractionResult :=
  let query_upper := PyStr.upper query in
  let potential_tickers := PyStr.findall_ticker query_upper in
  let found_tickers : gset string :=
    foldl (λ found ticker,
             if bool_decide (ticker ∈ COMMON_TICKERS) then found ∪ {[ticker]}
             else found)
      ∅ potential_tickers in
  let found_tickers :=
    foldl (λ found '(company, ticker),
             if PyStr.contains company query_upper then found ∪ {[ticker]}
             else found)
      found_tickers company_mappings in
  {| te_tickers := elements found_tickers;
     te_confidence := calculate_extraction_confidence query found_tickers;
     te_query_type := determine_query_type query found_tickers |}.

(** ** [utils.py]: ranking news items

    A news item is a Python dict.  The list handed to
    [rank_news_by_relevance] holds references to dicts, so the dicts live
    in a heap and the function runs in [M heap]. *)

Abbreviation dict := (gmap string pyval).
Abbreviation loc := nat.
Abbreviation heap := (gmap nat (gmap string pyval)).

Definition py_type_name (v : pyval) : string :=
  match v with
  | VNone => "NoneType"
  | VStr _ => "str"
  | VInt _ => "int"
  | VFloat _ => "float"
  | VList _ => "list"
  | VDict _ => "dict"
  end.

(** [item.get(key, default).method()] for a [str] method: the value must be
    a [str], anything else raises [AttributeError]. *)
Definition get_str_then {St} (item : dict) (key default method : string)
    (f : string → string) : M St string :=
  match item !! key with
  | None => ret (f default)
  | Some (VStr s) => ret (f s)
  | Some v =>
      raise (Exn AttributeError
               ("'" ++ py_type_name v ++ "' object has no attribute '"
                    ++ method ++ "'"))
  end.

(** The dict a reference points to. *)
Definition item_at (h : heap) (item : loc) : dict := default ∅ (h !! item).

Definition deref (item : loc) : M heap dict := λ h, (inr (item_at h item), h).

(** [item[key] = v] *)
Definition setitem (item : loc) (key : string) (v : pyval) : M heap unit :=
  modify_state (λ h, <[item := <[key := v]> (item_at h item)]> h).

Fixpoint for_each {St A} (l : list A) (body : A → M St unit) : M St unit :=
  match l with
  | [] => ret tt
  | x :: l' => _ ← body x; for_each l' body
  end.

(** The nested function [calculate_relevance_score]; [tickers] and
    [query_words] are the variables it closes over. *)
Definition calculate_relevance_score {St} (tickers : list string)
    (query_words : gset string) (item : dict) : M St Q :=
  let score := 0.0%Q in
  item_ticker ← get_str_then item "ticker" "" "upper" PyStr.upper;
  let score :=
    if bool_decide (item_ticker ∈ tickers) then (score + 0.5)%Q else score in
  headline ← get_str_then item "headline" "" "lower" PyStr.lower;
  let headline_words : gset string := list_to_set (PyStr.split headline) in
  let common_words := query_words ∩ headline_words in
  let score := (score + Qnat (size common_words) * 0.1)%Q in
  summary ← get_str_then item "summary" "" "lower" PyStr.lower;
  let summary_words : gset string := list_to_set (PyStr.split summary) in
  let common_summary_words := query_words ∩ summary_words in
  let score := (score + Qnat (size common_summary_words) * 0.05)%Q in
  (* if "datetime" in item: pass *)
  ret score.

(** [sorted(l, key=key, reverse=True)]: the stable sort into descending
    key order.  An element is inserted in front of the first one whose key
    is not larger, so it stays ahead of the equal-keyed elements that
    followed it in [l]. *)
Fixpoint insert_reverse {A} (key : A → Q) (x : A) (l : list A) : list A :=
  match l with
  | [] => [x]
  | y :: l' =>
      if Qle_bool (key y) (key x) then x :: y :: l'
      else y :: insert_reverse key x l'
  end.

Definition sorted_reverse {A} (key : A → Q) (l : list A) : list A :=
  foldr (insert_reverse key) [] l.

(** [x.get("relevance_score", 0)] as a sort key.  When the sort runs every
    item holds the float just stored by the loop; for values that cannot
    be compared Python would raise, a case the loop rules out. *)
Definition relevance_key (x : dict) : Q :=
  match x !! "relevance_score" with
  | Some (VFloat q) => q
  | Some (VInt z) => inject_Z z
  | _ => 0%Q
  end.

Definition rank_news_by_relevance (news_items : list loc) (query : string)
    (tickers : list string) : M heap (list loc) :=
  if bool_decide (news_items = []) then ret []
  else
    let query_lower := PyStr.lower query in
    let query_words : gset string := list_to_set (PyStr.split query_lower) in
    _ ← for_each news_items (λ item,
          d ← deref item;
          score ← calculate_relevance_score tickers query_words d;
          setitem item "relevance_score" (VFloat score));
    h ← get_state;
    ret (sorted_reverse (λ x, relevance_key (item_at h x)) news_items).

Definition mk_news (headline summary ticker source : string) : dict :=
  {[ "headline" := VStr headline; "summary" := VStr summary;
     "ticker" := VStr ticker; "source" := VStr source ]}.

(** Descending order of keys: [x] may stand before [y]. *)
Definition key_ge {A} (key : A → Q) (x y : A) : Prop := (key y <= key x)%Q.

#[global] Instance Qeq_decision (p q : Q) : Decision (p == q)%Q := Qeq_dec p q.

(** ** Ranking: well-formed items and the score in closed form *)

(** A news item whose [ticker], [headline] and [summary], when present,
    are text: the items the pipeline builds and the [NewsItem] shape. *)
Definition is_text (d : dict) (k : string) : bool :=
  match d !! k with
  | None | Some (VStr _) => true
  | Some _ => false
  end.

Definition news_item_ok (d : dict) : bool :=
  is_text d "ticker" && is_text d "headline" && is_text d "summary".

Definition text_of (d : dict) (k : string) : string :=
  match d !! k with
  | Some (VStr s) => s
  | _ => ""
  end.

(** Lower-cased, whitespace-separated words of a text, as a set. *)
Definition words (s : string) : gset string :=
  list_to_set (PyStr.split (PyStr.lower s)).

Definition ticker_matches (tickers : list string) (d : dict) : bool :=
  bool_decide (PyStr.upper (text_of d "ticker") ∈ tickers).

Definition headline_overlap (query : string) (d : dict) : nat :=
  size (words query ∩ words (text_of d "headline")).

Definition summary_overlap (query : string) (d : dict) : nat :=
  size (words query ∩ words (text_of d "summary")).

(** The number the code accumulates, addition by addition. *)
Definition score_value (tickers : list string) (query : string) (d : dict) : Q :=
  ((if ticker_matches tickers d then 0.0 + 0.5 else 0.0)
   + Qnat (headline_overlap query d) * 0.1
   + Qnat (summary_overlap query d) * 0.05)%Q.



(** The item after the loop body ran on it. *)
Definition scored (tickers : list string) (query : string) (d : dict) : dict :=
  <["relevance_score" := VFloat (score_value tickers query d)]> d.

(** ** [utils.py]: the prompt context *)

(** [str(v)] inside an f-string.  Text prints as itself; how Python prints
    any other value is left to [repr]. *)
Definition py_str (repr : pyval → string) (v : pyval) : string :=
  match v with
  | VStr s => s
  | _ => repr v
  end.

Definition newline : string := String "010" EmptyString.

Definition format_news_for_context (repr : pyval → string)
    (news_items : list dict) : string :=
  if bool_decide (news_items = []) then "No recent news available."
  else
    let context_parts :=
      imap (λ i item,
              pretty (S i) ++ ". "
                ++ py_str repr (default (VStr "No headline") (item !! "headline"))
                ++ newline
                ++ "   Summary: "
                ++ py_str repr (default (VStr "No summary") (item !! "summary"))
                ++ newline
                ++ "   Ticker: "
                ++ py_str repr (default (VStr "N/A") (item !! "ticker"))
                ++ newline
                ++ "   Source: "
                ++ py_str repr (default (VStr "N/A") (item !! "source"))
                ++ newline)
        (take 10 news_items) in
    PyStr.join newline context_parts.

(** ** [error_handling.py] *)

Definition vector_store_summary : string :=
  "I'm experiencing issues with my knowledge base. I can provide general information but may not have the latest updates.".

Definition create_fallback_response (query : string) (error : exn)
  : FinancialAnswer :=
  let '(summary, insights) :=
    match exn_cls error with
    | FinnhubAPIError =>
        ("I'm currently unable to fetch the latest financial data from external sources. Please try again in a few minutes.",
         ["External financial data service is temporarily unavailable"])
    | VectorStoreError =>
        (vector_store_summary,
         ["Knowledge base temporarily unavailable";
          "Consider asking about general financial concepts"])
    | LLMError =>
        ("I'm having trouble processing your request right now. Please try rephrasing your question or try again later.",
         ["Language model temporarily unavailable";
          "Try asking simpler questions"])
    | MongoDBError =>
        ("I'm experiencing database connectivity issues. Some features may be limited.",
         ["Database connection issues"; "Historical data may be unavailable"])
    | _ =>
        ("I encountered an unexpected error while processing your request: "
           ++ exn_msg error,
         ["Unexpected system error occurred";
          "Please try again or contact support"])
    end in
  {| fa_summary := summary;
     fa_key_insights := insights;
     fa_top_news := [];
     fa_mentioned_tickers := [];
     fa_sentiment := Some "neutral";
     fa_confidence_score := Some 0.0%Q;
     fa_market_outlook := Some "Unable to provide outlook due to system error" |}.

(** ** External services and the trace of calls made to them *)

Record ChainInput : Type := {
  ci_context : string;
  ci_query : string;
  ci_query_type : string;
  ci_tickers : string;
  ci_format_instructions : string;
}.

Record LogData : Type := {
  log_query : string;
  log_processing_time : Q;
  log_response_confidence : option Q;
  log_mentioned_tickers : list string;
  log_sentiment : option string;
  log_news_count : nat;
  log_insights_count : nat;
  log_error : option string;
}.

Inductive event : Type :=
| EvSimilaritySearch (query : string) (k : Z)
| EvChainInvoke (input : ChainInput)
| EvLogInfo (data : LogData).

Abbreviation trace := (list event).

(** What the code does not own: the vector index behind
    [vector_store.similarity_search], the chain [prompt | llm | parser]
    (whose parser yields a [FinancialAnswer] or raises), the parser's
    format instructions and the printing of non-text values. *)
Record Env : Type := {
  py_repr : pyval → string;
  format_instructions : string;
  vector_store_search : string → Z → exn + list Document;
  chain_invoke : ChainInput → exn + FinancialAnswer;
}.

Definition emit (e : event) : M trace unit := modify_state (λ t, (t ++ [e])%list).

Definition log_user_interaction (query : string) (response : FinancialAnswer)
    (processing_time : Q) : M trace unit :=
  emit (EvLogInfo
          {| log_query := query;
             log_processing_time := processing_time;
             log_response_confidence := fa_confidence_score response;
             log_mentioned_tickers := fa_mentioned_tickers response;
             log_sentiment := fa_sentiment response;
             log_news_count := length (fa_top_news response);
             log_insights_count := length (fa_key_insights response);
             log_error := None |}).

(** ** [vector_search.py]: retrieval *)

Definition similarity_search (env : Env) (query : string) (n : Z)
  : M trace (list Document) :=
  _ ← emit (EvSimilaritySearch query n);
  lift (vector_store_search env query n).

(** ** [llm_chain.py] *)

(** [a or b] on text. *)
Definition or_str (a b : string) : string :=
  match a with
  | EmptyString => b
  | _ => a
  end.

(** Step 3, the body of the loop over the retrieved documents. *)
Definition news_item_of_document (doc : Document) : dict :=
  let metadata := metadata doc in
  let content := page_content doc in
  let ticker := default "" (metadata !! "ticker") in
  let '(headline, summary) :=
    if PyStr.contains "Headline:" content then
      let parts := PyStr.split_sep "Summary:" content in
      if (2 <=? length parts)%nat then
        (PyStr.strip (PyStr.replace "Headline:" "" (nth 0 parts "")),
         PyStr.strip (nth 0 (PyStr.split_sep "Ticker:" (nth 1 parts "")) ""))
      else ("", "")
    else ("", "") in
  {[ "headline" := VStr (or_str headline "No headline available");
     "summary" := VStr (or_str summary "No summary available");
     "ticker" := VStr ticker;
     "source" := VStr (default "Unknown" (metadata !! "source"));
     "relevance_score" := VFloat (default 0.0%Q (doc_relevance_score doc)) ]}.

(** The list [news_items] of fresh dicts, as references into a heap that
    holds nothing else. *)
Definition alloc_items (ds : list dict) : list loc * heap :=
  (seq 0 (length ds), map_seq 0 ds).

(** [item[key]] *)
Definition getitem (item : dict) (key : string) : exn + pyval :=
  match item !! key with
  | Some v => inr v
  | None => inl (Exn KeyError ("'" ++ key ++ "'"))
  end.

Definition validation_error (field : string) : exn :=
  Exn ValidationError ("validation error: " ++ field).

(** A value for a field declared [str]. *)
Definition as_str (field : string) (v : pyval) : exn + string :=
  match v with
  | VStr s => inr s
  | _ => inl (validation_error field)
  end.

(** A value for a field declared [Optional[float]]. *)
Definition as_optional_float (field : string) (v : pyval) : exn + option Q :=
  match v with
  | VNone => inr None
  | VFloat q => inr (Some q)
  | VInt z => inr (Some (inject_Z z))
  | _ => inl (validation_error field)
  end.

Definition sum_bind {E A B} (r : E + A) (k : A → E + B) : E + B :=
  match r with
  | inl e => inl e
  | inr a => k a
  end.

Fixpoint traverse {E A B} (f : A → E + B) (l : list A) : E + list B :=
  match l with
  | [] => inr []
  | x :: l' =>
      sum_bind (f x) (λ y, sum_bind (traverse f l') (λ ys, inr (y :: ys)))
  end.

(** [NewsItem(headline=item["headline"], summary=item["summary"],
    ticker=item["ticker"], source=item["source"],
    relevance_score=item.get("relevance_score", 0.0))] *)
Definition structured_news_item (item : dict) : exn + NewsItem :=
  sum_bind (sum_bind (getitem item "headline") (as_str "headline")) (λ headline,
  sum_bind (sum_bind (getitem item "summary") (as_str "summary")) (λ summary,
  sum_bind (sum_bind (getitem item "ticker") (as_str "ticker")) (λ ticker,
  sum_bind (sum_bind (getitem item "source") (as_str "source")) (λ source,
  sum_bind (as_optional_float "relevance_score"
              (default (VFloat 0.0%Q) (item !! "relevance_score")))
    (λ relevance_score,
  inr {| ni_headline := headline; ni_summary := summary;
         ni_ticker := ticker; ni_source := source;
         ni_relevance_score := relevance_score; ni_date := None |}))))).

(** Step 4 on the freshly built dicts: rank them in their own heap and
    read the ranked dicts back. *)
Definition rank_items (news_items : list dict) (query : string)
    (tickers : list string) : exn + list dict :=
  let '(refs, h) := alloc_items news_items in
  match rank_news_by_relevance refs query tickers h with
  | (inr ranked, h') => inr (item_at h' <$> ranked)
  | (inl e, _) => inl e
  end.

Definition chain_input (env : Env) (query : string)
    (ticker_extraction : TickerExtractionResult) (context : string)
  : ChainInput :=
  {| ci_context := context;
     ci_query := query;
     ci_query_type := te_query_type ticker_extraction;
     ci_tickers :=
       if bool_decide (te_tickers ticker_extraction = []) then "None specified"
       else PyStr.join ", " (te_tickers ticker_extraction);
     ci_format_instructions := format_instructions env |}.

(** Step 9: what is written into the parsed answer. *)
Definition reconcile (response : FinancialAnswer) (extracted : list string)
    (structured_news : list NewsItem) : FinancialAnswer :=
  let all_tickers : gset string :=
    list_to_set (fa_mentioned_tickers response ++ extracted)%list in
  {| fa_summary := fa_summary response;
     fa_key_insights := fa_key_insights response;
     fa_top_news := structured_news;
     fa_mentioned_tickers := elements all_tickers;
     fa_sentiment := fa_sentiment response;
     fa_confidence_score := fa_confidence_score response;
     fa_market_outlook := fa_market_outlook response |}.

Definition generation_fallback (e : exn) : FinancialAnswer :=
  {| fa_summary :=
       "I apologize, but I encountered an error while processing your query: "
         ++ exn_msg e;
     fa_key_insights := ["Unable to process query due to technical error"];
     fa_top_news := [];
     fa_mentioned_tickers := [];
     fa_sentiment := Some "neutral";
     fa_confidence_score := Some 0.0%Q;
     fa_market_outlook := Some "Unable to provide outlook due to error" |}.

(** What a Python variable may hold where the code asks [isinstance]. *)
Inductive pyobj : Type :=
| ObjFinancialAnswer (a : FinancialAnswer)
| ObjDict (d : dict)
| ObjOther (str : string).

Definition retrieve_and_generate_response (env : Env) (query : string)
    (num_retrievals : Z) : M trace pyobj :=
  try_except
    (let ticker_extraction := extract_tickers_from_query query in
     retrieved_docs ← similarity_search env query num_retrievals;
     let news_items := news_item_of_document <$> retrieved_docs in
     ranked_news ← lift (rank_items news_items query
                           (te_tickers ticker_extraction));
     let context := format_news_for_context (py_repr env) ranked_news in
     let input := chain_input env query ticker_extraction context in
     _ ← emit (EvChainInvoke input);
     response ← lift (chain_invoke env input);
     (* the parser returns a FinancialAnswer, so the isinstance test holds *)
     structured_news ← lift (traverse structured_news_item (take 5 ranked_news));
     ret (ObjFinancialAnswer
            (reconcile response (te_tickers ticker_extraction) structured_news)))
    (λ e, ret (ObjFinancialAnswer (generation_fallback e))).

(** ** [rag_pipeline.py] *)

Record RAGPipeline : Type := {
  model : string;
  include_news : bool;
  max_results : Z;
  analysis_depth : string;
}.

(** [RAGPipeline()] with the defaults of [__init__]. *)
Definition default_pipeline : RAGPipeline :=
  {| model := "gemini-2.5-flash"; include_news := true;
     max_results := 5; analysis_depth := "Standard" |}.

(** [a or b] where [a] is an optional text, respectively an optional
    integer: [None], the empty text and [0] are false. *)
Definition opt_str_or (a : option string) (b : string) : string :=
  match a with
  | Some s => or_str s b
  | None => b
  end.

Definition opt_int_or (a : option Z) (b : Z) : Z :=
  match a with
  | Some n => if (n =? 0)%Z then b else n
  | None => b
  end.

Definition optional {A} (f : A → pyval) (o : option A) : pyval :=
  match o with
  | Some a => f a
  | None => VNone
  end.

(** [item.dict()] for a [NewsItem]. *)
Definition news_item_dict (item : NewsItem) : dict :=
  {[ "headline" := VStr (ni_headline item);
     "summary" := VStr (ni_summary item);
     "ticker" := VStr (ni_ticker item);
     "source" := VStr (ni_source item);
     "relevance_score" := optional VFloat (ni_relevance_score item);
     "date" := optional VStr (ni_date item) ]}.

Definition response_dict (summary : string) (key_insights tickers : list string)
    (sentiment : option string) (confidence_score : option Q)
    (news : list dict) : dict :=
  {[ "summary" := VStr summary;
     "key_insights" := VList (VStr <$> key_insights);
     "mentioned_tickers" := VList (VStr <$> tickers);
     "sentiment" := optional VStr sentiment;
     "confidence_score" := optional VFloat confidence_score;
     "related_news" := VList (VDict <$> news);
     "sources" := VList [] ]}.

Definition process_query (env : Env) (self : RAGPipeline) (query : string)
    (model_arg : option string) (include_news_arg : option bool)
    (max_results_arg : option Z) (analysis_depth_arg : option string)
  : M trace dict :=
  let model := opt_str_or model_arg (model self) in
  let include_news := default (include_news self) include_news_arg in
  let max_results := opt_int_or max_results_arg (max_results self) in
  let analysis_depth := opt_str_or analysis_depth_arg (analysis_depth self) in
  try_except
    (result ← retrieve_and_generate_response env query max_results;
     match result with
     | ObjFinancialAnswer result =>
         let news := news_item_dict <$> fa_top_news result in
         let response :=
           response_dict (fa_summary result) (fa_key_insights result)
             (fa_mentioned_tickers result) (fa_sentiment result)
             (fa_confidence_score result) news in
         _ ← log_user_interaction query result 0%Q;
         ret response
     | ObjDict result => ret result
     | ObjOther str =>
         ret (response_dict str [] [] (Some "neutral") (Some 0.0%Q) [])
     end)
    (λ e,
       let fallback := create_fallback_response query e in
       ret (response_dict (fa_summary fallback) (fa_key_insights fallback)
              (fa_mentioned_tickers fallback) (fa_sentiment fallback)
              (fa_confidence_score fallback) [])).

(** ** [vector_search.py]: ingestion

    The Document Store is the collection [financenews_documents], a list of
    records in insertion order; the vector index is the list of the
    documents added to it with their identifiers.  Both are taken to
    answer; the one exception the modelled code raises by itself is the
    validation of a scraped item.  The [DocumentModel] constructor is modelled
    without pydantic's coercions: a [str] field takes text, an [int] field
    an integer. *)

Record Store : Type := {
  documents : list DocumentModel;
  vector_index : list (string * Document);
  uuids_drawn : nat;
}.

Definition required (doc : dict) (field : string) : exn + pyval :=
  match doc !! field with
  | Some v => inr v
  | None => inl (validation_error field)
  end.

Definition as_int (field : string) (v : pyval) : exn + Z :=
  match v with
  | VInt z => inr z
  | _ => inl (validation_error field)
  end.

Definition as_optional_str (field : string) (v : pyval) : exn + option string :=
  match v with
  | VNone => inr None
  | VStr s => inr (Some s)
  | _ => inl (validation_error field)
  end.

Definition str_field (doc : dict) (field : string) : exn + string :=
  sum_bind (required doc field) (as_str field).

Definition int_field (doc : dict) (field : string) : exn + Z :=
  sum_bind (required doc field) (as_int field).

(** The constructor [DocumentModel], applied to the fields of [doc]. *)
Definition validate_document (doc : dict) : exn + DocumentModel :=
  sum_bind (str_field doc "category") (λ category,
  sum_bind (int_field doc "datetime") (λ datetime,
  sum_bind (str_field doc "headline") (λ headline,
  sum_bind (int_field doc "id") (λ id,
  sum_bind (as_optional_str "image" (default VNone (doc !! "image"))) (λ image,
  sum_bind (str_field doc "related") (λ related,
  sum_bind (str_field doc "source") (λ source,
  sum_bind (str_field doc "summary") (λ summary,
  sum_bind (str_field doc "url") (λ url,
  sum_bind (str_field doc "ticker") (λ ticker,
  sum_bind (str_field doc "date") (λ date,
  inr {| dm_category := category; dm_datetime := datetime;
         dm_headline := headline; dm_id := id; dm_image := image;
         dm_related := related; dm_source := source; dm_summary := summary;
         dm_url := url; dm_ticker := ticker; dm_date := date |}))))))))))).

(** A url as a key comparable with the stored urls, which are text. *)
Definition url_key (v : pyval) : option string :=
  match v with
  | VStr s => Some s
  | _ => None
  end.

(** [collection.find({"url": {"$in": document_urls}}, {"url": 1})], then
    the set of the urls found, as a list. *)
Definition bulk_check_duplicates (document_urls : list pyval)
  : M Store (list string) :=
  collection ← get_state;
  let existing_docs :=
    filter (λ doc, Some (dm_url doc) ∈ url_key <$> document_urls)
      (documents collection) in
  let existing_urls : gset string := list_to_set (dm_url <$> existing_docs) in
  ret (elements existing_urls).

Definition not_duplicate (duplicate_urls : gset string) (doc : dict) : Prop :=
  match url_key (default VNone (doc !! "url")) with
  | Some url => url ∉ duplicate_urls
  | None => True
  end.

#[global] Instance not_duplicate_dec duplicate_urls doc :
  Decision (not_duplicate duplicate_urls doc).
Proof. unfold not_duplicate. destruct (url_key _); apply _. Defined.

Definition insert_many (docs : list DocumentModel) : M Store unit :=
  modify_state (λ s,
    {| documents := documents s ++ docs;
       vector_index := vector_index s;
       uuids_drawn := uuids_drawn s |}).

(** [Document(page_content=f"Headline: ... Summary: ... Ticker: ...",
    metadata={"source": doc.url, "ticker": doc.ticker})] *)
Definition vector_document (doc : DocumentModel) : Document :=
  {| page_content :=
       "Headline: " ++ dm_headline doc ++ " Summary: " ++ dm_summary doc
         ++ " Ticker: " ++ dm_ticker doc;
     metadata := {[ "source" := dm_url doc; "ticker" := dm_ticker doc ]};
     doc_relevance_score := None |}.

(** [[str(uuid4()) for _ in range(n)]]: the next [n] identifiers. *)
Definition draw_uuids (uuid4 : nat → string) (n : nat) : M Store (list string) :=
  λ s, (inr (uuid4 <$> seq (uuids_drawn s) n),
        {| documents := documents s;
           vector_index := vector_index s;
           uuids_drawn := uuids_drawn s + n |}).

(** [vector_store.add_documents(documents=[doc], ids=[doc_id])] *)
Definition add_document (entry : Document * string) : M Store unit :=
  modify_state (λ s,
    {| documents := documents s;
       vector_index := vector_index s ++ [(entry.2, entry.1)];
       uuids_drawn := uuids_drawn s |}).

(** [store_documents] from the point where [scraper.run()] has returned
    [scraped_documents]. *)
Definition store_documents (uuid4 : nat → string) (scraped_documents : list dict)
  : M Store unit :=
  urls ← lift (traverse (λ doc, getitem doc "url") scraped_documents);
  duplicate_urls ← bulk_check_duplicates urls;
  let duplicate_urls : gset string := list_to_set duplicate_urls in
  non_duplicate_docs ←
    lift (traverse validate_document
            (filter (not_duplicate duplicate_urls) scraped_documents));
  if bool_decide (non_duplicate_docs ≠ []) then
    _ ← insert_many non_duplicate_docs;
    let vector_documents := vector_document <$> non_duplicate_docs in
    uuids ← draw_uuids uuid4 (length vector_documents);
    for_each (zip vector_documents uuids) add_document
  else ret ().

(** ** [error_handling.py]: retrying a call *)

(** What the wrapper built by [retry_on_failure] writes to the log, and
    the pauses it makes. *)
Inductive retry_event : Type :=
| RetryWarning (attempt : Z) (name : string) (e : exn)
| RetryInfo (delay : Q)
| RetrySleep (delay : Q)
| RetryError (attempts : Z) (name : string).

(** [range(n)] *)
Definition py_range (n : Z) : list Z := Z.of_nat <$> seq 0 (Z.to_nat n).

(** The wrapped function works on its own state; the wrapper adds the log. *)
Definition call_func {St A} (func : M St A) : M (St * list retry_event) A :=
  λ st, let '(r, s') := func st.1 in (r, (s', st.2)).

Definition retry_log {St} (ev : retry_event) : M (St * list retry_event) unit :=
  modify_state (λ st, (st.1, (st.2 ++ [ev])%list)).

(** [time.sleep(secs)], which refuses a negative length. *)
Definition time_sleep {St} (secs : Q) : M (St * list retry_event) unit :=
  if Qle_bool 0 secs then retry_log (RetrySleep secs)
  else raise (Exn (OtherException "ValueError")
                "sleep length must be non-negative").

(** [raise last_exception], where [last_exception] may still be [None]. *)
Definition raise_last {St A} (last_exception : option exn) : M St A :=
  match last_exception with
  | Some e => raise e
  | None =>
      raise (Exn (OtherException "TypeError")
               "exceptions must derive from BaseException")
  end.

(** The loop [for attempt in range(max_retries + 1)] over the attempts
    still to make, with the loop variables [last_exception] and
    [current_delay]; [break] goes on to the [raise] after the loop. *)
Fixpoint retry_loop {St A} (name : string) (func : M St A) (max_retries : Z)
    (backoff_factor : Q) (attempts : list Z) (last_exception : option exn)
    (current_delay : Q) : M (St * list retry_event) A :=
  match attempts with
  | [] => raise_last last_exception
  | attempt :: attempts' =>
      try_except (call_func func)
        (λ e,
           let last_exception := Some e in
           if (attempt <? max_retries)%Z then
             _ ← retry_log (RetryWarning (attempt + 1) name e);
             _ ← retry_log (RetryInfo current_delay);
             _ ← time_sleep current_delay;
             retry_loop name func max_retries backoff_factor attempts'
               last_exception (current_delay * backoff_factor)%Q
           else
             _ ← retry_log (RetryError (max_retries + 1) name);
             raise_last last_exception)
  end.

(** [retry_on_failure(max_retries, delay, backoff_factor)(func)], where
    [name] is [func.__name__]. *)
Definition retry_on_failure {St A} (max_retries : Z) (delay backoff_factor : Q)
    (name : string) (func : M St A) : M (St * list retry_event) A :=
  retry_loop name func max_retries backoff_factor (py_range (max_retries + 1))
    None delay.

(** ** [error_handling.py]: cleaning a ticker list *)

Fixpoint all_chars (p : ascii → bool) (s : string) : bool :=
  match s with
  | EmptyString => true
  | String c s' => p c && all_chars p s'
  end.

(** [s.isalpha()]: at least one character, all of them letters. *)
Definition isalpha (s : string) : bool :=
  negb (String.eqb s "")
  && all_chars (λ c, PyStr.is_upper c || PyStr.is_lower c) s.

(** [list(dict.fromkeys(keys))]: a key is entered when it is first met and
    the keys come back in the order of entry. *)
Definition fromkeys (keys : list string) : list string :=
  foldl (λ d key, if bool_decide (key ∈ d) then d else (d ++ [key])%list) [] keys.

(** The body of the loop of [validate_ticker_list]: the ticker appended to
    [valid_tickers], if any.  The warnings it logs are not modelled. *)
Definition cleaned_ticker (ticker : pyval) : option string :=
  match ticker with
  | VStr ticker =>
      if bool_decide (PyStr.strip ticker ≠ "") then
        let cleaned_ticker := PyStr.upper (PyStr.strip ticker) in
        if (String.length cleaned_ticker <=? 5)%nat && isalpha cleaned_ticker
        then Some cleaned_ticker
        else None
      else None
  | _ => None
  end.

Definition validate_ticker_list (tickers : list pyval) : list string :=
  if bool_decide (tickers = []) then []
  else
    let valid_tickers := omap cleaned_ticker tickers in
    fromkeys valid_tickers.

(** ** [utils/validators.py]: the checks of the user interface *)

Module InputValidator.



(** [SampleData.SAMPLE_TICKERS] of [core/config.py] *)
Definition SAMPLE_TICKERS : list string :=
  [ "AAPL"; "MSFT"; "GOOGL"; "AMZN"; "TSLA"; "META"; "NVDA"; "NFLX"; "JPM";
    "BAC"; "WMT"; "DIS"; "V"; "MA"; "PG"; "JNJ"; "UNH"; "HD" ].

(** [re.match(r"^[A-Z]{1,5}$", s)] as a truth value: the run of capitals
    at the start, of one to five letters, must reach the end of the text
    or the line feed that ends it. *)
Definition match_ticker_format (s : string) : bool :=
  let k := PyStr.upper_run 5 s in
  (1 <=? k)%nat
  && (String.eqb (PyStr.drop k s) "" || String.eqb (PyStr.drop k s) newline).

(** The body of the loop: the ticker is appended to [cleaned_tickers] or
    an entry is appended to [invalid_tickers]. *)
Definition check_ticker (repr : pyval → string)
    (acc : list string * list string) (ticker : pyval)
  : list string * list string :=
  let '(cleaned_tickers, invalid_tickers) := acc in
  match ticker with
  | VStr ticker =>
      let cleaned_ticker := PyStr.upper (PyStr.strip ticker) in
      if negb (match_ticker_format cleaned_ticker) then
        (cleaned_tickers, (invalid_tickers ++ [ticker])%list)
      else if bool_decide (cleaned_ticker ∈ SAMPLE_TICKERS)
              || (String.length cleaned_ticker <=? 5)%nat then
        ((cleaned_tickers ++ [cleaned_ticker])%list, invalid_tickers)
      else (cleaned_tickers, (invalid_tickers ++ [ticker])%list)
  | v => (cleaned_tickers, (invalid_tickers ++ [repr v])%list)
  end.

Definition validate_ticker_list (repr : pyval → string) (tickers : list pyval)
  : bool * option string * list string :=
  if bool_decide (tickers = []) then (true, None, [])
  else
    let '(cleaned_tickers, invalid_tickers) :=
      foldl (check_ticker repr) ([], []) tickers in
    let cleaned_tickers := fromkeys cleaned_tickers in
    if bool_decide (invalid_tickers ≠ []) then
      (false,
       Some ("Invalid ticker symbols: " ++ PyStr.join ", " invalid_tickers),
       cleaned_tickers)
    else if (10 <? length cleaned_tickers)%nat then
      (false, Some "Too many tickers. Please limit to 10 or fewer.",
       take 10 cleaned_tickers)
    else (true, None, cleaned_tickers).

End InputValidator.

(** ** [document_retriever.py]: the scraper

    Dates are day numbers.  The news service, the language detection and
    the two date formats are taken from outside. *)

Module FinnHubScraper.

Record ScraperEnv : Type := {
  (** [fetch_news(ticker, date)]: the items of the answer, [[]] when the
      status is not 200 *)
  fetch_news : string → string → exn + list dict;
  (** [detect(text)] of [langdetect] *)
  detect : pyval → exn + string;
  (** [datetime.fromtimestamp(ts).strftime("%Y-%m-%d")] *)
  date_of_timestamp : pyval → exn + string;
  (** [date.strftime("%Y-%m-%d")] *)
  strftime : Z → string;
}.

(** The attributes of the scraper object that the loop reads and writes,
    and the pauses made so far. *)
Record Scraper : Type := {
  start_date_obj : Z;
  end_date_obj : Z;
  tickers : list string;
  max_calls : Z;
  sleep_time : Z;
  request_count : Z;
  scraped_news : list dict;
  slept : list Z;
}.

(** [FinnHubScraper(start_date, end_date, tickers)] once the dates are
    parsed and the ticker list is there. *)
Definition init (start_date end_date : Z) (tickers : list string) : Scraper :=
  {| start_date_obj := start_date; end_date_obj := end_date;
     tickers := tickers; max_calls := 30; sleep_time := 60;
     request_count := 0; scraped_news := []; slept := [] |}.

Definition set_request_count (n : Z) (self : Scraper) : Scraper :=
  {| start_date_obj := start_date_obj self; end_date_obj := end_date_obj self;
     tickers := tickers self; max_calls := max_calls self;
     sleep_time := sleep_time self; request_count := n;
     scraped_news := scraped_news self; slept := slept self |}.

Definition append_news (news : dict) (self : Scraper) : Scraper :=
  {| start_date_obj := start_date_obj self; end_date_obj := end_date_obj self;
     tickers := tickers self; max_calls := max_calls self;
     sleep_time := sleep_time self; request_count := request_count self;
     scraped_news := scraped_news self ++ [news]; slept := slept self |}.

Definition sleep (secs : Z) (self : Scraper) : Scraper :=
  {| start_date_obj := start_date_obj self; end_date_obj := end_date_obj self;
     tickers := tickers self; max_calls := max_calls self;
     sleep_time := sleep_time self; request_count := request_count self;
     scraped_news := scraped_news self; slept := slept self ++ [secs] |}.

(** The body of the loop of [store_news] on one item. *)
Definition store_item (env : ScraperEnv) (news : dict) : M Scraper unit :=
  headline ← lift (getitem news "headline");
  language ← lift (detect env headline);
  if String.eqb language "en" then
    let news := <["ticker" := default (VStr "") (news !! "related")]> news in
    timestamp ← lift (getitem news "datetime");
    date ← lift (date_of_timestamp env timestamp);
    let news := <["date" := VStr date]> news in
    modify_state (append_news news)
  else ret ().

Definition store_news (env : ScraperEnv) (news_data : list dict)
  : M Scraper unit :=
  for_each news_data (store_item env).

(** The dates the loop [while date <= self.end_date_obj] visits. *)
Definition dates (start_date end_date : Z) : list Z :=
  (λ i, start_date + Z.of_nat i)%Z
    <$> seq 0 (Z.to_nat (end_date - start_date + 1)).

(** One round of the inner loop. *)
Definition scrape_day (env : ScraperEnv) (ticker : string) (date : Z)
  : M Scraper unit :=
  _ ← modify_state (λ self, set_request_count (request_count self + 1) self);
  news_data ← lift (fetch_news env ticker (strftime env date));
  _ ← (if bool_decide (news_data ≠ []) then store_news env news_data
       else ret ());
  self ← get_state;
  if (max_calls self <=? request_count self)%Z then
    _ ← modify_state (sleep (sleep_time self));
    modify_state (set_request_count 0)
  else ret ().

Definition scrape_and_store_news (env : ScraperEnv) : M Scraper unit :=
  self ← get_state;
  for_each (tickers self) (λ ticker,
    for_each (dates (start_date_obj self) (end_date_obj self))
      (scrape_day env ticker)).

Definition run (env : ScraperEnv) : M Scraper (list dict) :=
  _ ← scrape_and_store_news env;
  self ← get_state;
  ret (scraped_news self).

End FinnHubScraper.

(** ** Definitions used in the statements, and concrete inputs *)

Definition ranking_heap : heap :=
  {[ 0 := mk_news "Markets calm" "apple flat" "MSFT" "wire";
     1 := mk_news "Apple soars" "apple soars again" "aapl" "wire";
     2 := mk_news "Apple SOARS" "nothing" "TSLA" "wire" ]}.





Definition is_search (e : event) : bool :=
  match e with
  | EvSimilaritySearch _ _ => true
  | _ => false
  end.

(** The dict [process_query] makes of an answer. *)
Definition response_of (a : FinancialAnswer) : dict :=
  response_dict (fa_summary a) (fa_key_insights a) (fa_mentioned_tickers a)
    (fa_sentiment a) (fa_confidence_score a)
    (news_item_dict <$> fa_top_news a).

Definition log_data (query : string) (a : FinancialAnswer) : LogData :=
  {| log_query := query;
     log_processing_time := 0%Q;
     log_response_confidence := fa_confidence_score a;
     log_mentioned_tickers := fa_mentioned_tickers a;
     log_sentiment := fa_sentiment a;
     log_news_count := length (fa_top_news a);
     log_insights_count := length (fa_key_insights a);
     log_error := None |}.

Definition response_keys : gset string :=
  {[ "summary"; "key_insights"; "mentioned_tickers"; "sentiment";
     "confidence_score"; "related_news"; "sources" ]}.

Definition sample_docs : list Document :=
  [ {| page_content := "Headline: Markets calm Summary: nothing new Ticker: MSFT";
       metadata := {[ "source" := "http://b"; "ticker" := "MSFT" ]};
       doc_relevance_score := None |};
    {| page_content := "Headline: Apple soars Summary: apple stock up Ticker: AAPL";
       metadata := {[ "source" := "http://a"; "ticker" := "AAPL" ]};
       doc_relevance_score := None |} ].

(** An answer that fits the schema of [FinancialAnswer]: [sentiment] is
    any optional text and [confidence_score] any optional float. *)
Definition bullish_answer : FinancialAnswer :=
  {| fa_summary := "Apple is doing well.";
     fa_key_insights := ["Strong quarter"];
     fa_top_news := [];
     fa_mentioned_tickers := ["TSLA"];
     fa_sentiment := Some "bullish";
     fa_confidence_score := Some 1.5%Q;
     fa_market_outlook := None |}.

Definition sample_env : Env :=
  {| py_repr := λ _, "?";
     format_instructions := "Return JSON.";
     vector_store_search := λ _ _, inr sample_docs;
     chain_invoke := λ _, inr bullish_answer |}.




Definition sample_article : dict :=
  {[ "category" := VStr "company"; "datetime" := VInt 1700000000;
     "headline" := VStr "Apple soars"; "id" := VInt 1;
     "image" := VStr ""; "related" := VStr "AAPL"; "source" := VStr "wire";
     "summary" := VStr "Shares up"; "url" := VStr "http://news/apple";
     "ticker" := VStr "AAPL"; "date" := VStr "2023-11-14" ]}.

Definition empty_store : Store :=
  {| documents := []; vector_index := []; uuids_drawn := 0 |}.

Definition sample_uuid4 (n : nat) : string := "uuid-" ++ pretty n.

(** The urls the duplicate check reports: those of stored records that
    occur among the urls asked for. *)
Definition reported (docs : list DocumentModel) (urls : list pyval)
  : gset string :=
  list_to_set
    (elements
       (list_to_set
          (dm_url <$> filter (λ doc, Some (dm_url doc) ∈ url_key <$> urls) docs)
        : gset string)).

(** An article without its headline. *)
Definition broken_article : dict := delete "headline" sample_article.

(** The pauses recorded in a log of [retry_on_failure], in order. *)
Definition pauses (log : list retry_event) : list Q :=
  omap (λ ev, match ev with RetrySleep d => Some d | _ => None end) log.


(** A function that fails twice with a connection error and then answers;
    its state counts the calls. *)
Definition flaky (calls : nat) : (exn + string) * nat :=
  if (calls <? 2)%nat
  then (inl (Exn FinnhubAPIError ("timeout " ++ pretty calls)), S calls)
  else (inr "quote", S calls).

(** One to five capital letters. *)
Definition ticker_format (t : string) : Prop :=
  (1 ≤ String.length t ≤ 5)%nat ∧ all_chars PyStr.is_upper t = true.

#[global] Instance ticker_format_dec t : Decision (ticker_format t).
Proof. unfold ticker_format. apply _. Defined.

(** What [store_news] leaves in an item it keeps: the ticker copied from
    [related], a date, and a headline detected as English. *)
Definition scraped_item (env : FinnHubScraper.ScraperEnv) (item : dict) : Prop :=
  item !! "ticker" = Some (default (VStr "") (item !! "related"))
  ∧ (∃ date, item !! "date" = Some (VStr date))
  ∧ ∃ headline, item !! "headline" = Some headline
                ∧ FinnHubScraper.detect env headline = inr "en".

(** The scraper [self] with another counter, other pauses and other
    items. *)
Definition scraper_with (self : FinnHubScraper.Scraper) (count : Z)
    (pauses : list Z) (news : list dict) : FinnHubScraper.Scraper :=
  {| FinnHubScraper.start_date_obj := FinnHubScraper.start_date_obj self;
     FinnHubScraper.end_date_obj := FinnHubScraper.end_date_obj self;
     FinnHubScraper.tickers := FinnHubScraper.tickers self;
     FinnHubScraper.max_calls := FinnHubScraper.max_calls self;
     FinnHubScraper.sleep_time := FinnHubScraper.sleep_time self;
     FinnHubScraper.request_count := count;
     FinnHubScraper.scraped_news := news;
     FinnHubScraper.slept := pauses |}.

(** The number of requests a run makes: one for every ticker and day. *)
Definition requests (self : FinnHubScraper.Scraper) : nat :=
  length (FinnHubScraper.tickers self)
  * length (FinnHubScraper.dates (FinnHubScraper.start_date_obj self)
              (FinnHubScraper.end_date_obj self)).

(** The scraper after [k] requests counted from [self]: the counter, the
    pauses, and some well-formed items added. *)
Definition after_requests (env : FinnHubScraper.ScraperEnv)
    (self : FinnHubScraper.Scraper) (k : nat) (s : FinnHubScraper.Scraper)
  : Prop :=
  let total := (FinnHubScraper.request_count self + Z.of_nat k)%Z in
  ∃ new,
    Forall (scraped_item env) new
    ∧ s = scraper_with self (total mod FinnHubScraper.max_calls self)
            (FinnHubScraper.slept self
               ++ replicate (Z.to_nat (total / FinnHubScraper.max_calls self))
                    (FinnHubScraper.sleep_time self))
            (FinnHubScraper.scraped_news self ++ new).

(** A news service with one English item for every request. *)
Definition sample_scraper_env : FinnHubScraper.ScraperEnv :=
  {| FinnHubScraper.fetch_news ticker date :=
       inr [ {[ "category" := VStr "company"; "datetime" := VInt 1700000000;
                "headline" := VStr "Shares move"; "id" := VInt 1;
                "image" := VStr ""; "related" := VStr ticker;
                "source" := VStr "wire"; "summary" := VStr "Shares move";
                "url" := VStr ("http://news/" ++ ticker) ]} ];
     FinnHubScraper.detect _ := inr "en";
     FinnHubScraper.date_of_timestamp _ := inr "2023-11-14";
     FinnHubScraper.strftime _ := "2023-11-14" |}.


(** No occurrence of [sep] in [x ++ rest] starts inside [x]. *)
Fixpoint no_match_in (sep x rest : string) : bool :=
  match x with
  | EmptyString => true
  | String _ x' =>
      negb (String.prefix sep (x ++ rest)) && no_match_in sep x' rest
  end.

(** A separator of [news_item_of_document]: not empty, no space in it. *)
Definition marker (sep : string) : Prop :=
  sep ≠ "" ∧ all_chars (λ c, negb (Ascii.eqb c " ")) sep = true.

Definition long_headline : DocumentModel :=
  {| dm_category := "company"; dm_datetime := 1700000000;
     dm_headline := "  Apple: record quarter"; dm_id := 1; dm_image := None;
     dm_related := "AAPL"; dm_source := "wire";
     dm_summary := "Ticker AAPL up 3%"; dm_url := "http://news/apple";
     dm_ticker := "AAPL"; dm_date := "2023-11-14" |}.

(** * Properties *)

(** ** The string functions and the extraction on concrete texts *)

Example lower_ex : PyStr.lower "What's UP, Doc_9?" = "what's up, doc_9?".
Proof. reflexivity. Qed.

Example split_ex :
  PyStr.split "  apple  beats
 estimates " = ["apple"; "beats"; "estimates"].
Proof. reflexivity. Qed.

Example split_sep_ex :
  PyStr.split_sep "Summary:" "Headline: a Summary: b Summary: c"
  = ["Headline: a "; " b "; " c"].
Proof. reflexivity. Qed.

Example replace_ex :
  PyStr.strip (PyStr.replace "Headline:" "" "Headline: Apple up ") = "Apple up".
Proof. reflexivity. Qed.

Example findall_ex :
  PyStr.findall_ticker "AAPL VS MSFT, GOOGLE2 X_Y ABCDEF V."
  = ["AAPL"; "VS"; "MSFT"; "V"].
Proof. reflexivity. Qed.

Example search_dollar_ex :
  PyStr.search_dollar_ticker "buy $AAPL now" = true
  ∧ PyStr.search_dollar_ticker "buy $aapl now" = false
  ∧ PyStr.search_dollar_ticker "pay $TOOLONG" = false
  ∧ PyStr.search_dollar_ticker "cost $5" = false.
Proof. repeat split; reflexivity. Qed.

Example extract_ex :
  let r := extract_tickers_from_query "AAPL vs MSFT" in
  list_to_set (te_tickers r) = ({["AAPL"; "MSFT"]} : gset string)
  ∧ te_query_type r = "multi_stock_comparison"
  ∧ (te_confidence r == 0.6)%Q.
Proof. vm_compute. repeat split; reflexivity. Qed.

Example extract_ex2 :
  let r := extract_tickers_from_query "What's the outlook for Apple stock?" in
  te_tickers r = ["AAPL"] ∧ te_query_type r = "stock_specific"
  ∧ (te_confidence r == 0.6)%Q.
Proof. vm_compute. repeat split; reflexivity. Qed.

Example rank_ex :
  let h : heap :=
    {[ 0 := mk_news "Markets calm" "apple flat" "MSFT" "wire";
       1 := mk_news "Apple soars" "apple soars again" "aapl" "wire";
       2 := mk_news "Apple SOARS" "nothing" "TSLA" "wire" ]} in
  let '(r, h') := rank_news_by_relevance [0; 1; 2] "apple soars" ["AAPL"] h in
  r = inr [1; 2; 0]
  ∧ Qred ∘ relevance_key <$> h' !! 0 = Some (Qred 0.05)
  ∧ Qred ∘ relevance_key <$> h' !! 1 = Some (Qred 0.8)
  ∧ Qred ∘ relevance_key <$> h' !! 2 = Some (Qred 0.2).
Proof. vm_compute. repeat split; reflexivity. Qed.

(** ** The monad, step by step *)

Lemma run_bind {St A B} (m : M St A) (k : A → M St B) (s : St) :
  (x ← m; k x) s
  = match m s with
    | (inr a, s') => k a s'
    | (inl e, s') => (inl e, s')
    end.
Proof. reflexivity. Qed.

Lemma run_try_except {St A} (body : M St A) handler (s : St) :
  try_except body handler s
  = match body s with
    | (inr a, s') => (inr a, s')
    | (inl e, s') => handler e s'
    end.
Proof. reflexivity. Qed.

Lemma run_emit e (t : trace) : emit e t = (inr (), (t ++ [e])%list).
Proof. reflexivity. Qed.

Lemma run_lift {St A} (r : exn + A) (s : St) :
  lift r s = match r with inl e => (inl e, s) | inr a => (inr a, s) end.
Proof. by destruct r. Qed.

(** ** The stable descending sort *)

Section sorting.
Context {A : Type} (key : A → Q).

Implicit Types (x y : A) (l : list A).

Lemma insert_reverse_perm x l : insert_reverse key x l ≡ₚ x :: l.
Proof.
  induction l as [|y l IH]; simpl; [done|].
  destruct (Qle_bool (key y) (key x)); [done|].
  rewrite IH. apply Permutation_swap.
Qed.

Lemma sorted_reverse_perm l : sorted_reverse key l ≡ₚ l.
Proof.
  induction l as [|x l IH]; simpl; [done|].
  rewrite insert_reverse_perm. by rewrite IH.
Qed.







End sorting.

Lemma insert_reverse_ext {A} (k1 k2 : A → Q) x l :
  (∀ y, y ∈ x :: l → k1 y = k2 y) →
  insert_reverse k1 x l = insert_reverse k2 x l.
Proof.
  induction l as [|y l IH]; intros H; simpl; [done|].
  rewrite (H x), (H y) by set_solver.
  destruct (Qle_bool _ _); [done|].
  f_equal. apply IH. intros z Hz. apply H.
  apply elem_of_cons in Hz as [->|Hz]; set_solver.
Qed.

Lemma sorted_reverse_ext {A} (k1 k2 : A → Q) l :
  (∀ y, y ∈ l → k1 y = k2 y) → sorted_reverse k1 l = sorted_reverse k2 l.
Proof.
  induction l as [|x l IH]; intros H; simpl; [done|].
  rewrite IH by (intros; apply H; set_solver).
  apply insert_reverse_ext. intros y Hy. apply H.
  apply elem_of_cons in Hy as [->|Hy]; [set_solver|].
  apply elem_of_cons. right.
  by rewrite <- (sorted_reverse_perm k2 l).
Qed.

(** ** Ranking: the scoring loop *)


Lemma get_str_then_ok {St} (d : dict) k dflt meth f (s : St) :
  is_text d k = true →
  get_str_then d k dflt meth f s
  = (inr (f (match d !! k with Some (VStr t) => t | _ => dflt end)), s).
Proof.
  unfold is_text, get_str_then.
  destruct (d !! k) as [[]|]; intros; done.
Qed.

Lemma text_of_default (d : dict) k :
  match d !! k with Some (VStr t) => t | _ => "" end = text_of d k.
Proof. done. Qed.

Lemma calculate_relevance_score_ok {St} tickers query d (s : St) :
  news_item_ok d = true →
  calculate_relevance_score tickers (words query) d s
  = (inr (score_value tickers query d), s).
Proof.
  unfold news_item_ok. intros [[Ht Hh]%andb_true_iff Hs]%andb_true_iff.
  unfold calculate_relevance_score, mbind, M_bind, bind.
  rewrite (get_str_then_ok d "ticker") by done.
  rewrite (get_str_then_ok d "headline") by done.
  rewrite (get_str_then_ok d "summary") by done.
  rewrite !text_of_default. reflexivity.
Qed.

Section scored_facts.
Context (tickers : list string) (query : string).

Lemma text_of_scored d k v :
  k ≠ "relevance_score" → text_of (<["relevance_score" := v]> d) k = text_of d k.
Proof. intros Hk. unfold text_of. by rewrite lookup_insert_ne. Qed.

Lemma score_value_insert d v :
  score_value tickers query (<["relevance_score" := v]> d)
  = score_value tickers query d.
Proof.
  unfold score_value, ticker_matches, headline_overlap, summary_overlap.
  by rewrite !text_of_scored.
Qed.

Lemma scored_scored d :
  scored tickers query (scored tickers query d) = scored tickers query d.
Proof.
  unfold scored. rewrite score_value_insert. apply insert_insert_eq.
Qed.

Lemma news_item_ok_scored d :
  news_item_ok d = true → news_item_ok (scored tickers query d) = true.
Proof.
  unfold news_item_ok, is_text, scored. by rewrite !lookup_insert_ne.
Qed.

Lemma relevance_key_scored d :
  relevance_key (scored tickers query d) = score_value tickers query d.
Proof. unfold relevance_key, scored. by rewrite lookup_insert_eq. Qed.

(** One turn of the loop body. *)
Lemma score_step item (h : heap) :
  news_item_ok (item_at h item) = true →
  (d ← deref item;
   score ← calculate_relevance_score tickers (words query) d;
   setitem item "relevance_score" (VFloat score)) h
  = (inr (), <[item := scored tickers query (item_at h item)]> h).
Proof.
  intros Hok. rewrite run_bind. unfold deref at 1.
  rewrite run_bind, calculate_relevance_score_ok by done.
  reflexivity.
Qed.

(** The scoring loop never raises on well-formed items, and its whole
    effect on the heap is to store the score in each listed item. *)
Lemma scoring_loop news_items (h : heap) :
  (∀ l, l ∈ news_items → news_item_ok (item_at h l) = true) →
  ∃ h',
    for_each news_items (λ item,
      d ← deref item;
      score ← calculate_relevance_score tickers (words query) d;
      setitem item "relevance_score" (VFloat score)) h
    = (inr (), h')
    ∧ ∀ l, h' !! l = if bool_decide (l ∈ news_items)
                      then Some (scored tickers query (item_at h l))
                      else h !! l.
Proof.
  revert h. induction news_items as [|x rest IH]; intros h Hok.
  - exists h. split; [done|]. intros l.
    by rewrite bool_decide_eq_false_2 by apply not_elem_of_nil.
  - set (h1 := <[x := scored tickers query (item_at h x)]> h).
    assert (∀ l, item_at h1 l
                 = if decide (l = x) then scored tickers query (item_at h x)
                   else item_at h l) as Hat.
    { intros l. unfold item_at, h1. rewrite lookup_insert.
      destruct (decide (x = l)) as [->|]; [by rewrite decide_True|].
      by rewrite decide_False by done. }
    destruct (IH h1) as (h' & Hrun & Hh').
    { intros l Hl. rewrite Hat. destruct (decide (l = x)) as [->|].
      - apply news_item_ok_scored, Hok, list_elem_of_here.
      - by apply Hok, list_elem_of_further. }
    exists h'. split.
    + simpl. rewrite run_bind, score_step by apply Hok, list_elem_of_here.
      exact Hrun.
    + intros l. rewrite Hh', Hat.
      destruct (decide (l = x)) as [->|Hne].
      * rewrite (bool_decide_eq_true_2 (x ∈ x :: rest))
          by apply list_elem_of_here.
        rewrite scored_scored. case_bool_decide; [done|].
        unfold h1. by rewrite lookup_insert_eq.
      * unfold h1. rewrite lookup_insert_ne by done.
        rewrite (bool_decide_ext (l ∈ x :: rest) (l ∈ rest)); [done|].
        rewrite elem_of_cons. split; [intros [?|?]; done|by right].
Qed.

End scored_facts.



(** A run of [rank_news_by_relevance] on well-formed items: the result is
    the stable descending sort by the accumulated score, and the heap
    differs exactly by the scores stored in the listed items. *)
Lemma rank_run (h : heap) news_items query tickers :
  (∀ l, l ∈ news_items → news_item_ok (item_at h l) = true) →
  ∃ h',
    rank_news_by_relevance news_items query tickers h
    = (inr (sorted_reverse (λ l, score_value tickers query (item_at h l))
              news_items), h')
    ∧ ∀ l, h' !! l = if bool_decide (l ∈ news_items)
                      then Some (scored tickers query (item_at h l))
                      else h !! l.
Proof.
  intros Hok. unfold rank_news_by_relevance.
  case_bool_decide as Hnil.
  - subst. exists h. split; [done|]. intros l.
    rewrite bool_decide_eq_false_2; [done|]. apply not_elem_of_nil.
  - destruct (scoring_loop tickers query news_items h Hok) as (h' & Hrun & Hh').
    exists h'. split; [|done].
    fold (words query). rewrite run_bind, Hrun, run_bind. simpl.
    unfold ret. f_equal. f_equal.
    apply sorted_reverse_ext. intros l Hl.
    unfold item_at at 1. rewrite Hh', bool_decide_eq_true_2 by done.
    simpl. apply relevance_key_scored.
Qed.







(** ** Extraction confidence *)

Lemma Qnat_nonneg n : (0 <= Qnat n)%Q.
Proof.
  unfold Qnat, Qle. simpl. lia.
Qed.

Lemma keyword_bonus_bounds n :
  (0 <= Qmin (Qnat n * 0.1) 0.3 <= 0.3)%Q.
Proof.
  split; [|apply Q.le_min_r].
  apply Q.min_glb; [|lra].
  pose proof (Qnat_nonneg n). nra.
Qed.

Lemma nonempty_size (X : gset string) :
  bool_decide (X ≠ ∅) = bool_decide (1 ≤ size X)%nat.
Proof.
  apply bool_decide_ext.
  rewrite <- (leibniz_equiv_iff X ∅), <- size_non_empty_iff. lia.
Qed.

Lemma ltb_bool_decide (a b : nat) : (a <? b)%nat = bool_decide (a < b)%nat.
Proof.
  destruct (Nat.ltb_spec a b).
  - by rewrite bool_decide_eq_true_2.
  - rewrite bool_decide_eq_false_2; [done|lia].
Qed.



(** ** The answer pipeline: supporting lemmas *)












(** Every way [retrieve_and_generate_response] can go.  It always returns
    a [FinancialAnswer]; it asks the vector index exactly once, for
    [num_retrievals] documents; and its answer is either the fallback of
    its own handler or the reconciled answer of the chain. *)
Lemma retrieve_cases (env : Env) query n (t : trace) :
  ∃ a rest,
    retrieve_and_generate_response env query n t
    = (inr (ObjFinancialAnswer a), (t ++ EvSimilaritySearch query n :: rest)%list)
    ∧ forallb (λ e, negb (is_search e)) rest = true
    ∧ ((∃ e, a = generation_fallback e)
       ∨ (∃ input response news,
            chain_invoke env input = inr response
            ∧ a = reconcile response (te_tickers (extract_tickers_from_query query))
                    news)).
Proof.
  unfold retrieve_and_generate_response, similarity_search.
  rewrite run_try_except, !run_bind, run_emit, run_lift.
  destruct (vector_store_search env query n) as [e|docs].
  { exists (generation_fallback e), []. eauto. }
  rewrite run_bind, run_lift.
  destruct (rank_items _ _ _) as [e|ranked].
  { exists (generation_fallback e), []. eauto. }
  rewrite run_bind, run_emit, run_bind, run_lift.
  match goal with |- context [chain_invoke env ?i] => set (input := i) end.
  destruct (chain_invoke env input) as [e|response] eqn:Hchain.
  { exists (generation_fallback e), [EvChainInvoke input].
    rewrite <- app_assoc. eauto. }
  rewrite run_bind, run_lift.
  destruct (traverse structured_news_item (take 5 ranked)) as [e|news].
  { exists (generation_fallback e), [EvChainInvoke input].
    rewrite <- app_assoc. eauto. }
  eexists _, [EvChainInvoke input]. rewrite <- app_assoc.
  split; [reflexivity|]. split; [done|]. right. eauto.
Qed.




Lemma process_query_run (env : Env) self query model_arg include_news_arg
    max_results_arg analysis_depth_arg (t t' : trace) a :
  retrieve_and_generate_response env query
    (opt_int_or max_results_arg (max_results self)) t
  = (inr (ObjFinancialAnswer a), t') →
  process_query env self query model_arg include_news_arg max_results_arg
    analysis_depth_arg t
  = (inr (response_of a), (t' ++ [EvLogInfo (log_data query a)])%list).
Proof.
  intros Hrun. unfold process_query.
  rewrite run_try_except, run_bind, Hrun, run_bind.
  unfold log_user_interaction. rewrite run_emit. reflexivity.
Qed.

Lemma dom_response_dict summary insights tickers sentiment confidence news :
  dom (response_dict summary insights tickers sentiment confidence news)
  = response_keys.
Proof.
  unfold response_dict, response_keys.
  rewrite !dom_insert_L, dom_singleton_L. set_solver.
Qed.


(** ** The answer pipeline: the claims *)

(** C1.  For every query, configuration, behaviour of the external
    services and trace so far, [process_query] returns (it does not
    raise) a dict whose keys are exactly the seven of the output shape. *)
Theorem process_query_total (env : Env) self query model_arg include_news_arg
    max_results_arg analysis_depth_arg (t : trace) :
  ∃ response t',
    process_query env self query model_arg include_news_arg max_results_arg
      analysis_depth_arg t
    = (inr response, t')
    ∧ dom response = response_keys.
Proof.
  destruct (retrieve_cases env query
              (opt_int_or max_results_arg (max_results self)) t)
    as (a & rest & Hrun & _).
  exists (response_of a). eexists. split.
  - by apply process_query_run.
  - unfold response_of. apply dom_response_dict.
Qed.










(** C10.  The model, include_news and analysis_depth values, whether
    passed to [process_query] or held by the pipeline object, have no
    influence: two calls that agree on the query, on max_results and on
    the external services return the same answer and make the same
    calls to the services. *)
Theorem process_query_ignores_settings (env : Env) (self1 self2 : RAGPipeline)
    query max_results_arg (t : trace)
    model_arg1 news_arg1 depth_arg1 model_arg2 news_arg2 depth_arg2 :
  max_results self1 = max_results self2 →
  process_query env self1 query model_arg1 news_arg1 max_results_arg
    depth_arg1 t
  = process_query env self2 query model_arg2 news_arg2 max_results_arg
      depth_arg2 t.
Proof.
  intros Hlimit. unfold process_query.
  rewrite !run_try_except, !run_bind, Hlimit.
  reflexivity.
Qed.

Lemma process_query_ignores_settings_witness :
  process_query sample_env default_pipeline "How is Apple stock?"
    (Some "gemini-2.5-flash") (Some true) (Some 3%Z) (Some "Standard") []
  = process_query sample_env
      {| model := "gemini-1.5-pro"; include_news := false; max_results := 5;
         analysis_depth := "Deep" |}
      "How is Apple stock?" None (Some false) (Some 3%Z) (Some "Quick") [].
Proof.
  apply (process_query_ignores_settings sample_env default_pipeline
           {| model := "gemini-1.5-pro"; include_news := false;
              max_results := 5; analysis_depth := "Deep" |}).
  reflexivity.
Defined.

(** ** Ingestion *)

(** C9 fails on the code.  One batch holds the same article twice (the url
    is not in the store yet): both copies pass the duplicate check, both
    are inserted, and the store holds two records with one url. *)
Theorem store_documents_repeated_url :
  let run :=
    store_documents sample_uuid4 [sample_article; sample_article] empty_store in
  run.1 = inr ()
  ∧ dm_url <$> documents run.2 = ["http://news/apple"; "http://news/apple"]
  ∧ ¬ NoDup (dm_url <$> documents run.2).
Proof.
  assert (∀ l : list string,
            l = ["http://news/apple"; "http://news/apple"] → ¬ NoDup l) as Hdup.
  { intros l -> Hnd. apply NoDup_cons in Hnd as [Hnot _].
    apply Hnot, list_elem_of_here. }
  split; [vm_compute; reflexivity|].
  split; [vm_compute; reflexivity|].
  apply Hdup. vm_compute. reflexivity.
Qed.

Lemma sum_bind_inr {E A B} (r : E + A) (k : A → E + B) b :
  sum_bind r k = inr b → ∃ a, r = inr a ∧ k a = inr b.
Proof. destruct r as [e|a]; [done|]. eauto. Qed.

Lemma str_field_inr doc field s :
  str_field doc field = inr s → doc !! field = Some (VStr s).
Proof.
  unfold str_field, required. intros (v & Hv & Hs)%sum_bind_inr.
  destruct (doc !! field) as [w|]; [|done].
  injection Hv as ->. destruct v; try done. by injection Hs as ->.
Qed.

Lemma validate_document_url doc m :
  validate_document doc = inr m → doc !! "url" = Some (VStr (dm_url m)).
Proof.
  unfold validate_document. intros H.
  repeat (apply sum_bind_inr in H as (? & ? & H)).
  injection H as <-. simpl. by apply str_field_inr.
Qed.

Lemma traverse_inr {E A B} (f : A → E + B) l out :
  traverse f l = inr out → Forall2 (λ x y, f x = inr y) l out.
Proof.
  revert out. induction l as [|x l IH]; intros out H; simpl in H.
  - injection H as <-. constructor.
  - apply sum_bind_inr in H as (y & Hy & H).
    apply sum_bind_inr in H as (ys & Hys & H).
    injection H as <-. constructor; auto.
Qed.

Lemma elem_of_reported docs urls u :
  u ∈ reported docs urls
  ↔ (∃ doc, doc ∈ docs ∧ dm_url doc = u) ∧ Some u ∈ url_key <$> urls.
Proof.
  unfold reported.
  rewrite elem_of_list_to_set, elem_of_elements, elem_of_list_to_set.
  rewrite list_elem_of_fmap. split.
  - intros (doc & -> & [Hin Hdoc]%list_elem_of_filter). eauto.
  - intros [(doc & Hdoc & <-) Hin]. exists doc. split; [done|].
    by apply list_elem_of_filter.
Qed.

Lemma filter_none {A} (P : A → Prop) `{!∀ x, Decision (P x)} (l : list A) :
  Forall (λ x, ¬ P x) l → filter P l = [].
Proof.
  induction 1 as [|x l Hx _ IH]; [done|].
  by rewrite filter_cons_False.
Qed.

(** Adding to the vector index leaves the Document Store alone. *)
Lemma add_documents_keeps_records (l : list (Document * string)) (a b : Store) :
  for_each l add_document a = (inr (), b) → documents b = documents a.
Proof.
  revert a. induction l as [|x l IH]; intros a H; simpl in H.
  - by injection H as <-.
  - rewrite run_bind in H. unfold add_document at 1, modify_state in H.
    apply IH in H. by rewrite H.
Qed.

(** What a run that returns did. *)
Lemma store_documents_inr uuid4 batch (s s1 : Store) :
  store_documents uuid4 batch s = (inr (), s1) →
  ∃ urls new,
    traverse (λ doc, getitem doc "url") batch = inr urls
    ∧ traverse validate_document
        (filter (not_duplicate (reported (documents s) urls)) batch)
      = inr new
    ∧ documents s1 = (documents s ++ new)%list.
Proof.
  unfold store_documents. rewrite run_bind, run_lift.
  destruct (traverse _ batch) as [e|urls]; [done|].
  rewrite run_bind. unfold bulk_check_duplicates.
  rewrite run_bind. unfold get_state, ret at 1.
  fold (reported (documents s) urls).
  rewrite run_bind, run_lift.
  destruct (traverse validate_document _) as [e|new] eqn:Hval; [done|].
  intros H. exists urls, new. split; [done|]. split; [exact Hval|].
  case_bool_decide as Hnew.
  - rewrite run_bind in H. unfold insert_many, modify_state in H.
    rewrite run_bind in H. unfold draw_uuids in H.
    apply add_documents_keeps_records in H. by rewrite H.
  - subst new. injection H as <-.
    by rewrite app_nil_r.
Qed.

(** What the code does keep of the url invariant: a second run over the
    same batch inserts nothing and leaves the store as the first run left
    it. *)
Theorem store_documents_second_run uuid4 batch (s s1 : Store) :
  store_documents uuid4 batch s = (inr (), s1) →
  store_documents uuid4 batch s1 = (inr (), s1).
Proof.
  intros Hrun.
  destruct (store_documents_inr _ _ _ _ Hrun) as (urls & new & Hurls & Hnew & Hdocs).
  assert (filter (not_duplicate (reported (documents s1) urls)) batch = [])
    as Hnone.
  { apply filter_none, Forall_forall. intros doc Hdoc Hnd.
    apply traverse_inr in Hurls, Hnew.
    assert (∃ v, doc !! "url" = Some v ∧ v ∈ urls) as (v & Hv & Hvin).
    { apply list_elem_of_lookup in Hdoc as [i Hi].
      destruct (Forall2_lookup_l _ _ _ _ _ Hurls Hi) as (v & Hv & Hget).
      exists v. split; [|by eapply list_elem_of_lookup_2].
      unfold getitem in Hget. destruct (doc !! "url"); [|done].
      by injection Hget as ->. }
    unfold not_duplicate in Hnd. rewrite Hv in Hnd. simpl in Hnd.
    destruct (decide (not_duplicate (reported (documents s) urls) doc))
      as [Hfirst|Hfirst].
    - assert (doc ∈ filter (not_duplicate (reported (documents s) urls)) batch)
        as Hin by by apply list_elem_of_filter.
      apply list_elem_of_lookup in Hin as [i Hi].
      destruct (Forall2_lookup_l _ _ _ _ _ Hnew Hi) as (m & Hm & Hval).
      apply validate_document_url in Hval. rewrite Hv in Hval.
      injection Hval as ->. simpl in Hnd. apply Hnd.
      apply elem_of_reported. split.
      + exists m. split; [|done]. rewrite Hdocs.
        apply elem_of_app. right. by eapply list_elem_of_lookup_2.
      + apply list_elem_of_fmap. by exists (VStr (dm_url m)).
    - unfold not_duplicate in Hfirst. rewrite Hv in Hfirst. simpl in Hfirst.
      destruct (url_key v) as [u|] eqn:Hu; [|done].
      apply dec_stable in Hfirst. apply Hnd.
      apply elem_of_reported in Hfirst as [(m & Hm & <-) Hin].
      apply elem_of_reported. split; [|done].
      exists m. split; [|done]. rewrite Hdocs. apply elem_of_app. by left. }
  unfold store_documents. rewrite run_bind, run_lift, Hurls.
  rewrite run_bind. unfold bulk_check_duplicates.
  rewrite run_bind. unfold get_state, ret at 1.
  fold (reported (documents s1) urls).
  rewrite run_bind, run_lift, Hnone. reflexivity.
Qed.






(** ** More on the ticker extraction *)

Lemma foldl_set_invariant {A} (P : string → Prop) (f : gset string → A → gset string)
    (Q : A → Prop) (l : list A) (acc : gset string) :
  (∀ X a, Q a → (∀ t, t ∈ X → P t) → ∀ t, t ∈ f X a → P t) →
  Forall Q l → (∀ t, t ∈ acc → P t) → ∀ t, t ∈ foldl f acc l → P t.
Proof.
  intros Hf Hl. revert acc. induction Hl as [|a l Ha _ IH]; intros acc Hacc; [done|].
  simpl. apply IH. by apply Hf.
Qed.

(** X1.  Every ticker [extract_tickers_from_query] returns is a member of
    [COMMON_TICKERS] or the ticker of a company in [company_mappings], and
    no ticker is returned twice. *)
Theorem extract_tickers_known query :
  NoDup (te_tickers (extract_tickers_from_query query))
  ∧ ∀ t, t ∈ te_tickers (extract_tickers_from_query query) →
         t ∈ COMMON_TICKERS ∨ t ∈ company_mappings.*2.
Proof.
  unfold extract_tickers_from_query. cbn [te_tickers].
  split; [apply NoDup_elements|].
  intros t Ht. apply elem_of_elements in Ht. revert t Ht.
  apply (foldl_set_invariant _ _ (λ p, p.2 ∈ company_mappings.*2)).
  - intros X [company ticker] Hp HX t. simpl in Hp.
    destruct (PyStr.contains company _); [|by apply HX].
    intros [Ht| ->%elem_of_singleton]%elem_of_union; [by apply HX|by right].
  - apply Forall_forall. intros p Hp. apply list_elem_of_fmap. by exists p.
  - apply (foldl_set_invariant _ _ (λ _, True)).
    + intros X ticker _ HX t. case_bool_decide as Hin; [|by apply HX].
      intros [Ht| ->%elem_of_singleton]%elem_of_union; [by apply HX|by left].
    + by apply Forall_true.
    + intros t Ht. by apply elem_of_empty in Ht.
Qed.

Lemma length_elements_size (X : gset string) : length (elements X) = size X.
Proof. reflexivity. Qed.

(** X2.  The query type tells the number of tickers found: it is
    "stock_specific" exactly when one ticker was found and
    "multi_stock_comparison" exactly when more than one was, whatever the
    words of the query. *)
Theorem extract_query_type_counts_tickers query :
  let r := extract_tickers_from_query query in
  (te_query_type r = "stock_specific" ↔ length (te_tickers r) = 1)
  ∧ (te_query_type r = "multi_stock_comparison"
     ↔ (1 < length (te_tickers r))%nat).
Proof.
  unfold extract_tickers_from_query. cbn [te_tickers te_query_type].
  match goal with |- context [elements ?X] => generalize X end.
  intros X. rewrite length_elements_size. unfold determine_query_type.
  rewrite nonempty_size.
  destruct (Nat.eqb_spec (size X) 1) as [H1|H1];
    destruct (Nat.ltb_spec 1 (size X)) as [H2|H2];
    case_bool_decide as H0; cbn [andb]; try lia.
  - split; split; (done || lia).
  - split; split; (done || lia).
  - assert (size X = 0) as Hz by lia.
    repeat match goal with
           | |- context [if any_in ?l ?s then _ else _] =>
               destruct (any_in l s)
           end; split; split; (discriminate || lia).
Qed.





(** X4.  The confidence of an extraction is at least 0.4 as soon as one
    ticker is found and at least 0.6 with two or more; without any ticker
    it is at most 0.5. *)
Theorem extract_confidence_by_tickers query :
  let r := extract_tickers_from_query query in
  ((1 ≤ length (te_tickers r))%nat → (0.4 <= te_confidence r)%Q)
  ∧ ((2 ≤ length (te_tickers r))%nat → (0.6 <= te_confidence r)%Q)
  ∧ (te_tickers r = [] → (te_confidence r <= 0.5)%Q).
Proof.
  unfold extract_tickers_from_query. cbn [te_tickers te_confidence].
  match goal with |- context [elements ?X] => generalize X end.
  intros X. rewrite length_elements_size.
  unfold calculate_extraction_confidence.
  set (n := financial_word_count _).
  pose proof (keyword_bonus_bounds n) as [Hk0 Hk3].
  rewrite nonempty_size, ltb_bool_decide.
  split; [|split].
  - intros H1. rewrite bool_decide_eq_true_2 by done.
    apply Q.min_glb; [|lra].
    destruct (bool_decide (1 < size X)), (PyStr.search_dollar_ticker query); lra.
  - intros H2. rewrite bool_decide_eq_true_2 by lia.
    rewrite bool_decide_eq_true_2 by lia.
    apply Q.min_glb; [|lra].
    destruct (PyStr.search_dollar_ticker query); lra.
  - intros Hnil. apply elements_empty_inv in Hnil.
    apply leibniz_equiv in Hnil. subst X. rewrite size_empty.
    rewrite bool_decide_eq_false_2 by lia.
    eapply Qle_trans; [apply Q.le_min_l|].
    destruct (PyStr.search_dollar_ticker query); lra.
Qed.

Lemma extract_confidence_by_tickers_witness :
  (0.4 <= te_confidence (extract_tickers_from_query "What's the outlook for AAPL?"))%Q.
Proof.
  refine (proj1 (extract_confidence_by_tickers "What's the outlook for AAPL?") _).
  vm_compute. lia.
Defined.

(** ** More on the prompt context and the ranking *)

(** X5.  [format_news_for_context] reads at most the first ten items: the
    text for a list is the text for its first ten items, and for the empty
    list it is the fixed sentence. *)
Theorem format_news_for_context_first_ten repr (news_items : list dict) :
  format_news_for_context repr news_items
  = format_news_for_context repr (take 10 news_items)
  ∧ format_news_for_context repr [] = "No recent news available.".
Proof.
  split; [|done]. unfold format_news_for_context.
  destruct news_items as [|item rest]; [done|].
  rewrite !bool_decide_eq_false_2 by done.
  by rewrite take_take.
Qed.

Lemma insert_reverse_head {A} (key : A → Q) x l :
  Forall (λ y, (key y <= key x)%Q) l → insert_reverse key x l = x :: l.
Proof.
  destruct 1 as [|y l Hy _]; [done|]. simpl.
  by apply Qle_bool_iff in Hy as ->.
Qed.

(** A list whose keys never increase is left as it is. *)
Lemma sorted_reverse_sorted_input {A} (key : A → Q) (l : list A) :
  StronglySorted (key_ge key) l → sorted_reverse key l = l.
Proof.
  induction 1 as [|x l _ IH Hx]; [done|].
  cbn [sorted_reverse foldr]. fold (sorted_reverse key l).
  rewrite IH. by apply insert_reverse_head.
Qed.

Lemma StronglySorted_const {A} (R : relation A) (l : list A) :
  (∀ x y, R x y) → StronglySorted R l.
Proof.
  intros HR. induction l as [|x l IH]; constructor; [done|].
  apply Forall_forall. auto.
Qed.

(** X6.  With a query that has no words and an empty ticker list every
    item scores the same, so [rank_news_by_relevance] returns the items in
    the order it was given them. *)
Theorem rank_news_by_relevance_blank_query (h : heap) news_items query :
  (∀ l, l ∈ news_items → news_item_ok (item_at h l) = true) →
  PyStr.split (PyStr.lower query) = [] →
  (rank_news_by_relevance news_items query [] h).1 = inr news_items.
Proof.
  intros Hok Hblank.
  destruct (rank_run h news_items query [] Hok) as (h' & -> & _).
  cbn [fst]. f_equal. apply sorted_reverse_sorted_input, StronglySorted_const.
  intros x y. unfold key_ge, score_value, ticker_matches, headline_overlap,
    summary_overlap, words.
  rewrite Hblank, !bool_decide_eq_false_2 by apply not_elem_of_nil.
  rewrite list_to_set_nil, !(left_absorb_L ∅ (∩)), size_empty.
  apply Qle_refl.
Qed.

Lemma rank_news_by_relevance_blank_query_witness :
  (rank_news_by_relevance [2; 0; 1] "  " [] ranking_heap).1 = inr [2; 0; 1].
Proof.
  apply (rank_news_by_relevance_blank_query ranking_heap [2; 0; 1] "  ").
  - intros l Hl.
    repeat (apply elem_of_cons in Hl as [->|Hl]; [vm_compute; reflexivity|]).
    by apply elem_of_nil in Hl.
  - reflexivity.
Defined.



(** ** More on the answer pipeline *)

(** X8.  Whatever the error and the query, the answer of
    [create_fallback_response] has confidence 0.0, sentiment "neutral", no
    tickers and no news; and for the four service error classes it does
    not depend on the text of the exception. *)
Theorem create_fallback_response_shape query query' (error : exn) message :
  let a := create_fallback_response query error in
  fa_confidence_score a = Some 0.0%Q
  ∧ fa_sentiment a = Some "neutral"
  ∧ fa_mentioned_tickers a = []
  ∧ fa_top_news a = []
  ∧ (exn_cls error ∈ [FinnhubAPIError; VectorStoreError; LLMError; MongoDBError] →
     create_fallback_response query' (Exn (exn_cls error) message) = a).
Proof.
  unfold create_fallback_response.
  destruct (exn_cls error) eqn:Hcls; cbn -[elem_of];
    repeat split; try done;
    intros Hin; exfalso;
    repeat (apply elem_of_cons in Hin as [Hin|Hin]; [discriminate|]);
    by apply elem_of_nil in Hin.
Qed.

Lemma create_fallback_response_shape_witness :
  create_fallback_response "other" (Exn LLMError "quota exceeded")
  = create_fallback_response "How is AAPL?" (Exn LLMError "timeout").
Proof.
  refine (proj2 (proj2 (proj2 (proj2
            (create_fallback_response_shape "How is AAPL?" "other"
               (Exn LLMError "timeout") "quota exceeded")))) _).
  cbn [exn_cls]. apply list_elem_of_further, list_elem_of_further, list_elem_of_here.
Defined.



(** ** More on the ingestion *)

Lemma store_documents_second_run_witness :
  let s1 := (store_documents sample_uuid4 [sample_article] empty_store).2 in
  store_documents sample_uuid4 [sample_article] s1 = (inr (), s1).
Proof.
  apply (store_documents_second_run sample_uuid4 [sample_article] empty_store).
  vm_compute. reflexivity.
Defined.

Lemma add_documents_run (entries : list (Document * string)) (s : Store) :
  for_each entries add_document s
  = (inr (),
     {| documents := documents s;
        vector_index := vector_index s ++ ((λ e, (e.2, e.1)) <$> entries);
        uuids_drawn := uuids_drawn s |}).
Proof.
  revert s. induction entries as [|e entries IH]; intros s.
  - simpl. unfold ret. rewrite app_nil_r. by destruct s.
  - simpl. rewrite run_bind. unfold add_document at 1, modify_state.
    rewrite IH. simpl. by rewrite <- app_assoc.
Qed.

(** [store_documents] as one expression of the batch and the store. *)
Lemma store_documents_run uuid4 batch (s : Store) :
  store_documents uuid4 batch s
  = match traverse (λ doc, getitem doc "url") batch with
    | inl e => (inl e, s)
    | inr urls =>
        match traverse validate_document
                (filter (not_duplicate (reported (documents s) urls)) batch) with
        | inl e => (inl e, s)
        | inr new =>
            (inr (),
             {| documents := documents s ++ new;
                vector_index :=
                  vector_index s
                    ++ zip (uuid4 <$> seq (uuids_drawn s) (length new))
                         (vector_document <$> new);
                uuids_drawn := uuids_drawn s + length new |})
        end
    end.
Proof.
  unfold store_documents. rewrite run_bind, run_lift.
  destruct (traverse _ batch) as [e|urls]; [done|].
  rewrite run_bind. unfold bulk_check_duplicates.
  rewrite run_bind. unfold get_state, ret at 1.
  fold (reported (documents s) urls).
  rewrite run_bind, run_lift.
  destruct (traverse validate_document _) as [e|new]; [done|].
  case_bool_decide as Hnew.
  - rewrite run_bind. unfold insert_many, modify_state.
    rewrite run_bind. unfold draw_uuids. rewrite add_documents_run.
    cbn [documents vector_index uuids_drawn]. rewrite length_fmap.
    do 3 f_equal.
    generalize (uuid4 <$> seq (uuids_drawn s) (length new)).
    generalize (vector_document <$> new). clear.
    induction l as [|d l IH]; intros [|u us]; simpl; f_equal; auto.
  - subst new. simpl. unfold ret.
    rewrite !app_nil_r, Nat.add_0_r. by destruct s.
Qed.

(** X12.  A run of [store_documents] that returns only appends: the
    records stored before are kept in place, and every record inserted
    gets one entry in the vector index, in the same order, under a fresh
    identifier and with its url as the source. *)
Theorem store_documents_appends uuid4 batch (s s1 : Store) :
  store_documents uuid4 batch s = (inr (), s1) →
  ∃ new,
    documents s1 = (documents s ++ new)%list
    ∧ vector_index s1
      = (vector_index s
           ++ zip (uuid4 <$> seq (uuids_drawn s) (length new))
                (vector_document <$> new))%list
    ∧ Forall (λ d, metadata (vector_document d) !! "source" = Some (dm_url d)) new.
Proof.
  rewrite store_documents_run.
  destruct (traverse _ batch) as [e|urls]; [done|].
  destruct (traverse validate_document _) as [e|new]; [done|].
  intros [= <-]. exists new. split; [done|]. split; [done|].
  apply Forall_forall. intros d _. unfold vector_document. cbn [metadata].
  by simplify_map_eq.
Qed.

Lemma store_documents_appends_witness :
  ∃ new,
    documents (store_documents sample_uuid4 [sample_article] empty_store).2
    = (documents empty_store ++ new)%list
    ∧ vector_index (store_documents sample_uuid4 [sample_article] empty_store).2
      = (vector_index empty_store
           ++ zip (sample_uuid4 <$> seq (uuids_drawn empty_store) (length new))
                (vector_document <$> new))%list
    ∧ Forall (λ d, metadata (vector_document d) !! "source" = Some (dm_url d)) new.
Proof.
  apply (store_documents_appends sample_uuid4 [sample_article] empty_store).
  vm_compute. reflexivity.
Defined.

(** X13.  When [store_documents] raises, because an item has no url or a
    new item does not validate, nothing at all was stored: one bad item
    rejects the whole batch. *)
Theorem store_documents_all_or_nothing uuid4 batch (s s1 : Store) e :
  store_documents uuid4 batch s = (inl e, s1) → s1 = s.
Proof.
  rewrite store_documents_run.
  destruct (traverse _ batch) as [e'|urls]; [congruence|].
  destruct (traverse validate_document _) as [e'|new]; congruence.
Qed.

Lemma store_documents_all_or_nothing_witness :
  (store_documents sample_uuid4
     [sample_article; <["url" := VStr "http://news/other"]> broken_article]
     empty_store).2
  = empty_store.
Proof.
  eapply (store_documents_all_or_nothing sample_uuid4
            [sample_article; <["url" := VStr "http://news/other"]> broken_article]
            empty_store _ (validation_error "headline")).
  vm_compute. reflexivity.
Defined.



(** ** Retrying *)




(** X15.  With a negative [max_retries] the wrapper never calls the
    function: the loop has no round, [last_exception] is still [None],
    and [raise None] is a [TypeError]. *)
Theorem retry_on_failure_no_attempt {St A} (max_retries : Z)
    (delay backoff_factor : Q) name (func : M St A) st :
  (max_retries < 0)%Z →
  retry_on_failure max_retries delay backoff_factor name func st
  = (inl (Exn (OtherException "TypeError")
            "exceptions must derive from BaseException"), st).
Proof.
  intros Hneg. unfold retry_on_failure, py_range.
  replace (Z.to_nat (max_retries + 1)) with 0%nat by lia. done.
Qed.

Lemma retry_on_failure_no_attempt_witness :
  retry_on_failure (-1) 1 2 "get_quote" flaky (0%nat, [])
  = (inl (Exn (OtherException "TypeError")
            "exceptions must derive from BaseException"), (0%nat, [])).
Proof. apply retry_on_failure_no_attempt. lia. Defined.





(** ** Facts about the string functions *)

Lemma string_app_cons c (s t : string) : String c s ++ t = String c (s ++ t).
Proof. reflexivity. Qed.

Lemma string_app_nil_r (s : string) : s ++ "" = s.
Proof.
  induction s as [|c s IH]; [done|]. by rewrite string_app_cons, IH.
Qed.

Lemma rev_app_rev_app (s a b : string) :
  String.rev_app (String.rev_app s a) b = String.rev_app a (s ++ b).
Proof.
  revert a b. induction s as [|c s IH]; intros a b; [done|].
  simpl. by rewrite IH.
Qed.

Lemma string_rev_involutive (s : string) : String.rev (String.rev s) = s.
Proof.
  unfold String.rev. rewrite rev_app_rev_app. simpl. apply string_app_nil_r.
Qed.

Lemma all_chars_rev_app p (s a : string) :
  all_chars p (String.rev_app s a) = all_chars p s && all_chars p a.
Proof.
  revert a. induction s as [|c s IH]; intros a; [done|].
  simpl. rewrite IH. simpl. by destruct (p c), (all_chars p s).
Qed.





Lemma upper_char_idemp c :
  PyStr.upper_char (PyStr.upper_char c) = PyStr.upper_char c.
Proof. destruct c as [[] [] [] [] [] [] [] []]; reflexivity. Qed.

Lemma is_lower_upper_char c : PyStr.is_lower (PyStr.upper_char c) = false.
Proof. destruct c as [[] [] [] [] [] [] [] []]; reflexivity. Qed.

Lemma is_upper_fixed c : PyStr.is_upper c = true → PyStr.upper_char c = c.
Proof. destruct c as [[] [] [] [] [] [] [] []]; (reflexivity || discriminate). Qed.

Lemma is_upper_not_space c : PyStr.is_upper c = true → PyStr.is_space c = false.
Proof. destruct c as [[] [] [] [] [] [] [] []]; (reflexivity || discriminate). Qed.


Lemma upper_fixed (s : string) :
  all_chars PyStr.is_upper s = true → PyStr.upper s = s.
Proof.
  unfold PyStr.upper. induction s as [|c s IH]; [done|].
  simpl. intros [Hc Hs]%andb_true_iff. by rewrite is_upper_fixed, IH.
Qed.

Lemma lstrip_no_space (s : string) :
  all_chars (λ c, negb (PyStr.is_space c)) s = true → PyStr.lstrip s = s.
Proof. destruct s as [|c s]; [done|]. simpl. by destruct (PyStr.is_space c). Qed.

Lemma strip_no_space (s : string) :
  all_chars (λ c, negb (PyStr.is_space c)) s = true → PyStr.strip s = s.
Proof.
  intros Hs. unfold PyStr.strip. rewrite (lstrip_no_space s) by done.
  rewrite lstrip_no_space; [apply string_rev_involutive|].
  unfold String.rev. by rewrite all_chars_rev_app, Hs.
Qed.

Lemma all_chars_impl (p q : ascii → bool) (s : string) :
  (∀ c, p c = true → q c = true) →
  all_chars p s = true → all_chars q s = true.
Proof.
  intros Hpq. induction s as [|c s IH]; [done|].
  simpl. intros [Hc Hs]%andb_true_iff. by rewrite Hpq, IH.
Qed.

(** Letters that come out of [upper] are capitals. *)
Lemma isalpha_upper (s : string) :
  all_chars (λ c, PyStr.is_upper c || PyStr.is_lower c) (PyStr.upper s)
  = all_chars PyStr.is_upper (PyStr.upper s).
Proof.
  unfold PyStr.upper. induction s as [|c s IH]; [done|].
  simpl. by rewrite IH, is_lower_upper_char, orb_false_r.
Qed.

(** ** Cleaning a ticker list *)

Lemma fromkeys_acc_NoDup (l d : list string) :
  NoDup d →
  NoDup (foldl (λ d key, if bool_decide (key ∈ d) then d else (d ++ [key])%list)
           d l).
Proof.
  revert d. induction l as [|k l IH]; intros d Hd; [done|].
  simpl. apply IH. case_bool_decide as Hk; [done|].
  apply NoDup_app. split; [done|]. split; [|apply NoDup_singleton].
  intros x Hx ->%list_elem_of_singleton. done.
Qed.

Lemma fromkeys_acc_elem_of (l d : list string) x :
  x ∈ foldl (λ d key, if bool_decide (key ∈ d) then d else (d ++ [key])%list) d l
  ↔ x ∈ d ∨ x ∈ l.
Proof.
  revert d. induction l as [|k l IH]; intros d.
  - simpl. split; [by left|]. intros [H|H]; [done|]. by apply not_elem_of_nil in H.
  - simpl. rewrite IH, elem_of_cons. case_bool_decide as Hk.
    + split; [intros [H|H]; auto|]. intros [H|[->|H]]; auto.
    + rewrite elem_of_app, list_elem_of_singleton.
      split; [intros [[H|H]|H]; auto|]. intros [H|[H|H]]; auto.
Qed.

Lemma fromkeys_acc_fixed (l d : list string) :
  NoDup (d ++ l) →
  foldl (λ d key, if bool_decide (key ∈ d) then d else (d ++ [key])%list) d l
  = (d ++ l)%list.
Proof.
  revert d. induction l as [|k l IH]; intros d Hd; [by rewrite app_nil_r|].
  simpl. apply NoDup_app in Hd as Hd'. destruct Hd' as (_ & Hdisj & _).
  rewrite bool_decide_eq_false_2.
  - rewrite IH; rewrite <- app_assoc; done.
  - intros Hk. apply (Hdisj k Hk). apply list_elem_of_here.
Qed.

Lemma fromkeys_NoDup l : NoDup (fromkeys l).
Proof. apply fromkeys_acc_NoDup, NoDup_nil_2. Qed.

Lemma fromkeys_elem_of l x : x ∈ fromkeys l ↔ x ∈ l.
Proof.
  unfold fromkeys. rewrite fromkeys_acc_elem_of.
  split; [intros [H|H]; [by apply not_elem_of_nil in H|done]|by right].
Qed.

Lemma fromkeys_fixed l : NoDup l → fromkeys l = l.
Proof. intros Hl. unfold fromkeys. by rewrite fromkeys_acc_fixed. Qed.

Lemma cleaned_ticker_format ticker c :
  cleaned_ticker ticker = Some c → ticker_format c.
Proof.
  destruct ticker as [|s| | | |]; try done. simpl.
  case_bool_decide as Hne; [|done].
  destruct (_ <=? 5)%nat eqn:Hlen; [|done].
  destruct (isalpha _) eqn:Halpha; [|done].
  intros [= <-]. apply Nat.leb_le in Hlen.
  unfold isalpha in Halpha. apply andb_true_iff in Halpha as [Hn Ha].
  rewrite isalpha_upper in Ha. split; [|done]. split; [|done].
  destruct (PyStr.upper (PyStr.strip s)); [done|simpl; lia].
Qed.

Lemma cleaned_ticker_fixed c :
  ticker_format c → cleaned_ticker (VStr c) = Some c.
Proof.
  intros [[Hl1 Hl5] Hup]. simpl.
  assert (PyStr.strip c = c) as ->.
  { apply strip_no_space. eapply all_chars_impl; [|exact Hup].
    intros ch Hch. by rewrite is_upper_not_space. }
  rewrite upper_fixed by done.
  rewrite bool_decide_eq_true_2 by (destruct c; [simpl in Hl1; lia|done]).
  replace (String.length c <=? 5)%nat with true
    by (symmetry; by apply Nat.leb_le).
  unfold isalpha.
  replace (String.eqb c "") with false
    by (destruct c; [simpl in Hl1; lia|done]).
  simpl. erewrite all_chars_impl; [done| |exact Hup].
  intros ch ->. done.
Qed.

Lemma omap_cleaned_fixed (l : list string) :
  Forall ticker_format l → omap cleaned_ticker (VStr <$> l) = l.
Proof.
  induction 1 as [|c l Hc _ IH]; [done|].
  change (omap cleaned_ticker (VStr <$> c :: l))
    with (match cleaned_ticker (VStr c) with
          | Some y => y :: omap cleaned_ticker (VStr <$> l)
          | None => omap cleaned_ticker (VStr <$> l)
          end).
  by rewrite cleaned_ticker_fixed, IH.
Qed.

Lemma cleaned_tickers_format (tickers : list pyval) :
  Forall ticker_format (fromkeys (omap cleaned_ticker tickers)).
Proof.
  apply Forall_forall. intros c Hc. rewrite fromkeys_elem_of in Hc.
  apply list_elem_of_omap in Hc as (ticker & _ & Hc).
  by eapply cleaned_ticker_format.
Qed.


(** X19.  Cleaning is idempotent: a cleaned list goes through
    [validate_ticker_list] unchanged. *)
Theorem validate_ticker_list_idempotent (tickers : list pyval) :
  validate_ticker_list (VStr <$> validate_ticker_list tickers)
  = validate_ticker_list tickers.
Proof.
  unfold validate_ticker_list at 2 3. case_bool_decide as Hnil; [done|].
  pose proof (fromkeys_NoDup (omap cleaned_ticker tickers)) as Hnd.
  pose proof (cleaned_tickers_format tickers) as Hfmt.
  generalize dependent (fromkeys (omap cleaned_ticker tickers)).
  intros l Hnd Hfmt. unfold validate_ticker_list.
  case_bool_decide as Hl; [by destruct l|].
  rewrite omap_cleaned_fixed by done. by apply fromkeys_fixed.
Qed.

(** ** The tickers the extraction can yield *)

Lemma take_upper_run k n s :
  (k ≤ PyStr.upper_run n s)%nat → all_chars PyStr.is_upper (PyStr.take k s) = true.
Proof.
  revert n s. induction k as [|k IH]; intros n s Hk; [done|].
  destruct n as [|n], s as [|c s]; simpl in Hk; try lia.
  simpl. destruct (PyStr.is_upper c) eqn:Hc; [|lia].
  simpl. apply (IH n). lia.
Qed.

Lemma longest_bounded_le n s k :
  PyStr.longest_bounded n s = Some k → (k ≤ n)%nat.
Proof.
  induction n as [|n IH]; [done|]. simpl.
  destruct (PyStr.boundary_after_word _).
  - intros [= <-]. lia.
  - intros H. apply IH in H. lia.
Qed.

Lemma findall_go_upper s prev skip :
  Forall (λ t, all_chars PyStr.is_upper t = true) (PyStr.findall_go prev skip s).
Proof.
  revert prev skip. induction s as [|c s IH]; intros prev skip; [apply Forall_nil_2|].
  cbn [PyStr.findall_go]. destruct skip as [|k]; [|apply IH].
  destruct (PyStr.boundary_before prev); [|apply IH].
  destruct (PyStr.match_ticker_token _) as [k|] eqn:Hk; [|apply IH].
  apply Forall_cons. split; [|apply IH].
  apply (take_upper_run k 5). by apply (longest_bounded_le _ (String c s)).
Qed.

(** Where an extracted ticker comes from: a token of capitals that is in
    [COMMON_TICKERS], or the table of company names. *)
Lemma extract_tickers_origin query t :
  t ∈ te_tickers (extract_tickers_from_query query) →
  (t ∈ COMMON_TICKERS ∧ all_chars PyStr.is_upper t = true)
  ∨ t ∈ company_mappings.*2.
Proof.
  unfold extract_tickers_from_query. cbn [te_tickers].
  intros Ht. apply elem_of_elements in Ht. revert t Ht.
  apply (foldl_set_invariant _ _ (λ p, p.2 ∈ company_mappings.*2)).
  - intros X [company ticker] Hp HX t. simpl in Hp.
    destruct (PyStr.contains company _); [|by apply HX].
    intros [Ht| ->%elem_of_singleton]%elem_of_union; [by apply HX|by right].
  - apply Forall_forall. intros p Hp. apply list_elem_of_fmap. by exists p.
  - apply (foldl_set_invariant _ _ (λ t, all_chars PyStr.is_upper t = true)).
    + intros X ticker Hup HX t. case_bool_decide as Hin; [|by apply HX].
      intros [Ht| ->%elem_of_singleton]%elem_of_union; [by apply HX|].
      left. split; assumption.
    + apply findall_go_upper.
    + intros t Ht. by apply elem_of_empty in Ht.
Qed.

(** X20.  The class-B share "BRK.B" is listed in [COMMON_TICKERS] but is
    never extracted, from any query: the token pattern takes capitals
    only, and the table of company names leads to "BRK.A". *)
Theorem extract_never_class_b query :
  "BRK.B" ∈ COMMON_TICKERS
  ∧ "BRK.B" ∉ te_tickers (extract_tickers_from_query query).
Proof.
  split; [by vm_compute|].
  intros [[_ Hup]|Hmap]%extract_tickers_origin; [done|].
  revert Hmap. apply (bool_decide_unpack _). by vm_compute.
Qed.

Lemma extracted_ticker_format query t :
  t ∈ te_tickers (extract_tickers_from_query query) →
  t = "BRK.A" ∨ ticker_format t.
Proof.
  intros [[Hin Hup]|Hmap]%extract_tickers_origin.
  - right. revert t Hin Hup.
    assert (∀ t, t ∈ elements COMMON_TICKERS →
                 all_chars PyStr.is_upper t = true → ticker_format t) as H.
    { apply (Forall_forall
               (λ t, all_chars PyStr.is_upper t = true → ticker_format t)).
      apply (bool_decide_unpack _). by vm_compute. }
    intros t Hin. apply H. by apply elem_of_elements.
  - revert t Hmap.
    apply (Forall_forall (λ t, t = "BRK.A" ∨ ticker_format t)).
    apply (bool_decide_unpack _). by vm_compute.
Qed.

Lemma omap_cleaned_extracted (l : list string) :
  Forall (λ t, t = "BRK.A" ∨ ticker_format t) l →
  omap cleaned_ticker (VStr <$> l) = filter (λ t, t ≠ "BRK.A") l.
Proof.
  induction 1 as [|c l Hc _ IH]; [done|].
  change (omap cleaned_ticker (VStr <$> c :: l))
    with (match cleaned_ticker (VStr c) with
          | Some y => y :: omap cleaned_ticker (VStr <$> l)
          | None => omap cleaned_ticker (VStr <$> l)
          end).
  rewrite filter_cons, IH. destruct Hc as [->|Hc].
  - by rewrite decide_False by (intros ?; done).
  - rewrite cleaned_ticker_fixed by done.
    rewrite decide_True; [done|]. intros ->. by destruct Hc as [_ ?].
Qed.

(** X21.  [validate_ticker_list] keeps, in place, every ticker the
    extraction yields except "BRK.A", which it drops for its dot. *)
Theorem validate_extracted_tickers query :
  validate_ticker_list (VStr <$> te_tickers (extract_tickers_from_query query))
  = filter (λ t, t ≠ "BRK.A") (te_tickers (extract_tickers_from_query query)).
Proof.
  assert (NoDup (te_tickers (extract_tickers_from_query query))) as Hnd.
  { unfold extract_tickers_from_query. cbn [te_tickers]. apply NoDup_elements. }
  assert (Forall (λ t, t = "BRK.A" ∨ ticker_format t)
            (te_tickers (extract_tickers_from_query query))) as Hfmt.
  { apply Forall_forall. intros t. apply extracted_ticker_format. }
  generalize dependent (te_tickers (extract_tickers_from_query query)).
  intros l Hnd Hfmt. unfold validate_ticker_list.
  case_bool_decide as Hnil; [by destruct l|].
  rewrite omap_cleaned_extracted by done.
  apply fromkeys_fixed. by apply NoDup_filter.
Qed.

(** ** The checks of the user interface *)
















(** ** The scraper *)

Lemma for_each_steps {St A} (I : nat → St → Prop) (w : nat)
    (body : A → M St unit) (l : list A) (s s' : St) (k : nat) :
  (∀ x k s s', body x s = (inr (), s') → I k s → I (k + w)%nat s') →
  for_each l body s = (inr (), s') → I k s → I (k + length l * w)%nat s'.
Proof.
  intros Hbody. revert s k. induction l as [|x l IH]; intros s k.
  - simpl. unfold ret. intros [= <-] HI. by rewrite Nat.add_0_r.
  - cbn [for_each]. rewrite run_bind.
    destruct (body x s) as [[e|[]] s1] eqn:Hx; [done|].
    intros Hrest HI. simpl.
    replace (k + (w + length l * w))%nat with (k + w + length l * w)%nat by lia.
    eapply IH; [exact Hrest|]. by eapply Hbody.
Qed.

(** One item of [store_news]: whatever the outcome, the scraper is as it
    was or has one more item, a well-formed one. *)
Lemma store_item_run env news (s : FinnHubScraper.Scraper) :
  (FinnHubScraper.store_item env news s).2 = s
  ∨ ∃ item, scraped_item env item
            ∧ FinnHubScraper.store_item env news s
              = (inr (), FinnHubScraper.append_news item s).
Proof.
  unfold FinnHubScraper.store_item. rewrite run_bind, run_lift.
  destruct (getitem news "headline") as [e|headline] eqn:Hh; [by left|].
  rewrite run_bind, run_lift.
  destruct (FinnHubScraper.detect env headline) as [e|language] eqn:Hd;
    [by left|].
  destruct (String.eqb_spec language "en") as [->|Hne]; [|by left].
  rewrite run_bind, run_lift.
  destruct (getitem _ "datetime") as [e|timestamp]; [by left|].
  rewrite run_bind, run_lift.
  destruct (FinnHubScraper.date_of_timestamp env timestamp) as [e|date];
    [by left|].
  right. eexists. split; [|reflexivity].
  unfold getitem in Hh. destruct (news !! "headline") as [h|] eqn:Hh'; [|done].
  injection Hh as ->.
  unfold scraped_item. rewrite !lookup_insert_ne by done.
  rewrite lookup_insert_eq. split; [by rewrite !lookup_insert_ne by done|].
  split.
  - exists date. by rewrite lookup_insert_eq.
  - exists headline. by rewrite !lookup_insert_ne by done.
Qed.


Lemma scraper_with_self (s : FinnHubScraper.Scraper) :
  scraper_with s (FinnHubScraper.request_count s) (FinnHubScraper.slept s)
    (FinnHubScraper.scraped_news s) = s.
Proof. by destruct s. Qed.

(** [store_news] changes nothing but the list of items, to which it adds
    well-formed items, whether it returns or raises. *)
Lemma store_news_run env news_data self c p nw :
  ∃ new,
    Forall (scraped_item env) new
    ∧ (FinnHubScraper.store_news env news_data (scraper_with self c p nw)).2
      = scraper_with self c p (nw ++ new).
Proof.
  unfold FinnHubScraper.store_news.
  revert nw. induction news_data as [|news news_data IH]; intros nw.
  - exists []. split; [done|]. simpl. by rewrite app_nil_r.
  - cbn [for_each]. rewrite run_bind.
    destruct (store_item_run env news (scraper_with self c p nw))
      as [Hs|(item & Hitem & Hrun)].
    + destruct (FinnHubScraper.store_item env news _) as [[e|[]] s1];
        simpl in Hs; subst s1.
      * exists []. split; [done|]. simpl. by rewrite app_nil_r.
      * apply IH.
    + rewrite Hrun.
      change (FinnHubScraper.append_news item (scraper_with self c p nw))
        with (scraper_with self c p (nw ++ [item])).
      destruct (IH (nw ++ [item])%list) as (new & Hnew & Hrest).
      exists (item :: new). split; [by apply Forall_cons|].
      rewrite Hrest. by rewrite <- app_assoc.
Qed.

(** One request: the counter goes up by one, or back to zero after a
    pause when it reaches [max_calls]. *)
Lemma scrape_day_run env ticker date self c p nw s' :
  FinnHubScraper.scrape_day env ticker date (scraper_with self c p nw)
  = (inr (), s') →
  ∃ new,
    Forall (scraped_item env) new
    ∧ s' = if (FinnHubScraper.max_calls self <=? c + 1)%Z
           then scraper_with self 0 (p ++ [FinnHubScraper.sleep_time self])
                  (nw ++ new)
           else scraper_with self (c + 1) p (nw ++ new).
Proof.
  unfold FinnHubScraper.scrape_day.
  rewrite run_bind. unfold modify_state at 1.
  change (FinnHubScraper.set_request_count _ (scraper_with self c p nw))
    with (scraper_with self (c + 1) p nw).
  rewrite run_bind, run_lift.
  destruct (FinnHubScraper.fetch_news env ticker _) as [e|news_data]; [done|].
  rewrite run_bind.
  assert (∃ new,
            Forall (scraped_item env) new
            ∧ ((if bool_decide (news_data ≠ [])
                then FinnHubScraper.store_news env news_data else ret ())
                 (scraper_with self (c + 1) p nw)).2
              = scraper_with self (c + 1) p (nw ++ new))
    as (new & Hnew & Hs2).
  { case_bool_decide; [apply store_news_run|].
    exists []. split; [done|]. simpl. by rewrite app_nil_r. }
  destruct ((if bool_decide (news_data ≠ [])
             then FinnHubScraper.store_news env news_data else ret ())
              (scraper_with self (c + 1) p nw)) as [[e|[]] s2]; [done|].
  simpl in Hs2. subst s2. rewrite run_bind. unfold get_state.
  cbn [scraper_with FinnHubScraper.max_calls FinnHubScraper.request_count
       FinnHubScraper.sleep_time].
  destruct (_ <=? _)%Z.
  - rewrite run_bind. unfold modify_state. intros [= <-]. by exists new.
  - unfold ret. intros [= <-]. by exists new.
Qed.

(** The state after [k] requests counted from [self]. *)
Lemma requests_step env self k (s s' : FinnHubScraper.Scraper) ticker date :
  (0 < FinnHubScraper.max_calls self)%Z →
  (0 <= FinnHubScraper.request_count self)%Z →
  FinnHubScraper.scrape_day env ticker date s = (inr (), s') →
  after_requests env self k s → after_requests env self (k + 1) s'.
Proof.
  intros Hmc Hrc Hrun (new & Hnew & ->).
  apply scrape_day_run in Hrun as (new' & Hnew' & ->).
  exists (new ++ new')%list. split; [by apply Forall_app|].
  set (total := (FinnHubScraper.request_count self + Z.of_nat k)%Z).
  set (mc := FinnHubScraper.max_calls self) in *.
  replace (FinnHubScraper.request_count self + Z.of_nat (k + 1))%Z
    with (total + 1)%Z by lia.
  assert (0 <= total)%Z as Htot by lia.
  pose proof (Z.div_mod total mc ltac:(lia)) as Hdm.
  pose proof (Z.mod_pos_bound total mc Hmc) as Hmod.
  pose proof (Z.div_pos total mc Htot Hmc) as Hdiv.
  destruct (Z.leb_spec mc (total mod mc + 1)) as [Hle|Hlt].
  - assert ((total + 1) mod mc = 0)%Z as ->.
    { symmetry. apply (Z.mod_unique _ _ (total / mc + 1)); lia. }
    assert ((total + 1) / mc = total / mc + 1)%Z as ->.
    { symmetry. apply (Z.div_unique _ _ _ 0); lia. }
    replace (Z.to_nat (total / mc + 1)) with (S (Z.to_nat (total / mc))) by lia.
    by rewrite replicate_S_end, <- !app_assoc.
  - assert ((total + 1) mod mc = total mod mc + 1)%Z as ->.
    { symmetry. apply (Z.mod_unique _ _ (total / mc)); lia. }
    assert ((total + 1) / mc = total / mc)%Z as ->.
    { symmetry. apply (Z.div_unique _ _ _ (total mod mc + 1)); lia. }
    by rewrite <- !app_assoc.
Qed.

(** The whole loop, counted from a scraper whose counter is below
    [max_calls]. *)
Lemma scrape_and_store_news_run env (self s' : FinnHubScraper.Scraper) :
  (0 <= FinnHubScraper.request_count self < FinnHubScraper.max_calls self)%Z →
  FinnHubScraper.scrape_and_store_news env self = (inr (), s') →
  after_requests env self (requests self) s'.
Proof.
  intros Hrc. unfold FinnHubScraper.scrape_and_store_news.
  rewrite run_bind. unfold get_state. intros Hrun.
  unfold requests.
  set (days := FinnHubScraper.dates _ _) in *.
  apply (for_each_steps (after_requests env self) (length days) _ _ _ _ 0%nat)
    in Hrun; [exact Hrun| |].
  - intros ticker k s1 s2 Hdays HI.
    replace (length days) with (length days * 1)%nat by lia.
    revert Hdays HI. apply for_each_steps.
    intros date k' s3 s4. apply requests_step; lia.
  - exists []. split; [done|].
    rewrite Z.add_0_r, Z.mod_small, Z.div_small by lia.
    simpl. rewrite !app_nil_r. symmetry. apply scraper_with_self.
Qed.

Lemma run_after_requests env (self s' : FinnHubScraper.Scraper) items :
  (0 <= FinnHubScraper.request_count self < FinnHubScraper.max_calls self)%Z →
  FinnHubScraper.run env self = (inr items, s') →
  after_requests env self (requests self) s'
  ∧ FinnHubScraper.scraped_news s' = items.
Proof.
  intros Hrc. unfold FinnHubScraper.run. rewrite run_bind.
  destruct (FinnHubScraper.scrape_and_store_news env self) as [[e|[]] s1] eqn:Hrun;
    [done|].
  rewrite run_bind. unfold get_state, ret. intros [= <- <-].
  split; [|done]. by apply scrape_and_store_news_run.
Qed.



(** X25.  A run of a fresh scraper that returns makes [n] requests, one
    for every ticker and day, pauses [n / 30] times for 60 seconds, and
    returns items that all carry a date, a headline detected as English
    and, as ticker, their [related] field (the empty text without one). *)
Theorem scraper_run_fresh env start_date end_date tickers items s' :
  FinnHubScraper.run env (FinnHubScraper.init start_date end_date tickers)
  = (inr items, s') →
  let n := Z.of_nat (length tickers
                     * length (FinnHubScraper.dates start_date end_date)) in
  FinnHubScraper.request_count s' = (n mod 30)%Z
  ∧ FinnHubScraper.slept s' = replicate (Z.to_nat (n / 30)) 60%Z
  ∧ FinnHubScraper.scraped_news s' = items
  ∧ Forall (scraped_item env) items.
Proof.
  intros Hrun.
  apply run_after_requests in Hrun as [(new & Hnew & ->) <-]; [|by simpl].
  unfold requests. simpl. by rewrite Z.add_0_l.
Qed.

Lemma scraper_run_fresh_witness :
  let s' :=
    (FinnHubScraper.run sample_scraper_env
       (FinnHubScraper.init 0 1 ["AAPL"])).2 in
  let n := Z.of_nat (length ["AAPL"]
                     * length (FinnHubScraper.dates 0 1)) in
  FinnHubScraper.request_count s' = (n mod 30)%Z
  ∧ FinnHubScraper.slept s' = replicate (Z.to_nat (n / 30)) 60%Z
  ∧ FinnHubScraper.scraped_news s' = FinnHubScraper.scraped_news s'
  ∧ Forall (scraped_item sample_scraper_env) (FinnHubScraper.scraped_news s').
Proof.
  intros s'.
  apply (scraper_run_fresh sample_scraper_env 0 1 ["AAPL"]
           (FinnHubScraper.scraped_news s') s').
  vm_cast_no_check
    (eq_refl (FinnHubScraper.run sample_scraper_env
                (FinnHubScraper.init 0 1 ["AAPL"]))).
Defined.

Lemma scraped_item_ticker env item dm :
  scraped_item env item → validate_document item = inr dm →
  dm_ticker dm = dm_related dm.
Proof.
  intros (Hticker & _ & _). unfold validate_document. intros H.
  repeat (apply sum_bind_inr in H as (? & ? & H)).
  injection H as <-. simpl.
  repeat match goal with
         | H : str_field _ _ = inr _ |- _ => apply str_field_inr in H
         end.
  match goal with
  | Hr : item !! "related" = _, Ht : item !! "ticker" = _ |- _ =>
      rewrite Hr in Hticker; rewrite Ht in Hticker
  end.
  simpl in Hticker. by injection Hticker.
Qed.

(** X26.  [store_documents] as a whole, scraping included: every record
    it inserts has the ticker the news service gave as [related]. *)
Theorem store_documents_ticker_is_related env start_date end_date tickers
    items s' uuid4 (store store1 : Store) :
  FinnHubScraper.run env (FinnHubScraper.init start_date end_date tickers)
  = (inr items, s') →
  store_documents uuid4 items store = (inr (), store1) →
  ∃ new,
    documents store1 = (documents store ++ new)%list
    ∧ Forall (λ dm, dm_ticker dm = dm_related dm) new.
Proof.
  intros Hrun Hstore.
  apply run_after_requests in Hrun as [(scraped & Hitems & ->) <-]; [|by simpl].
  cbn [scraper_with FinnHubScraper.scraped_news FinnHubScraper.init app] in Hstore.
  destruct (store_documents_inr _ _ _ _ Hstore)
    as (urls & new & _ & Hnew & Hdocs).
  exists new. split; [done|].
  apply traverse_inr in Hnew. apply Forall_forall. intros dm Hdm.
  apply list_elem_of_lookup in Hdm as [i Hi].
  destruct (Forall2_lookup_r _ _ _ _ _ Hnew Hi) as (doc & Hdoc & Hval).
  apply list_elem_of_lookup_2, list_elem_of_filter in Hdoc as [_ Hdoc].
  eapply scraped_item_ticker; [|exact Hval].
  by eapply (proj1 (Forall_forall _ _) Hitems).
Qed.

Lemma store_documents_ticker_is_related_witness :
  let run :=
    FinnHubScraper.run sample_scraper_env (FinnHubScraper.init 0 1 ["AAPL"]) in
  ∃ new,
    documents
      (store_documents sample_uuid4 (FinnHubScraper.scraped_news run.2)
         empty_store).2
    = (documents empty_store ++ new)%list
    ∧ Forall (λ dm, dm_ticker dm = dm_related dm) new.
Proof.
  intros run.
  apply (store_documents_ticker_is_related sample_scraper_env 0 1 ["AAPL"]
           (FinnHubScraper.scraped_news run.2) run.2 sample_uuid4 empty_store).
  - vm_cast_no_check
      (eq_refl (FinnHubScraper.run sample_scraper_env
                  (FinnHubScraper.init 0 1 ["AAPL"]))).
  - vm_cast_no_check
      (eq_refl (store_documents sample_uuid4
                  (FinnHubScraper.scraped_news run.2) empty_store)).
Defined.

(** ** Reading back what the ingestion wrote *)

Lemma string_app_assoc (a b c : string) : (a ++ b) ++ c = a ++ (b ++ c).
Proof.
  induction a as [|x a IH]; [done|]. by rewrite !string_app_cons, IH.
Qed.

Lemma rev_app_app (a b y : string) :
  String.rev_app a b ++ y = String.rev_app a (b ++ y).
Proof.
  revert b. induction a as [|x a IH]; intros b; [done|]. simpl. by rewrite IH.
Qed.

Lemma rev_rev_app (a b : string) :
  String.rev (String.rev_app a b) = String.rev b ++ a.
Proof.
  unfold String.rev. rewrite rev_app_rev_app, string_app_nil_r.
  by rewrite rev_app_app.
Qed.

Lemma split_sep_go_no_match sep x rest cur :
  no_match_in sep x rest = true →
  PyStr.split_sep_go sep 0 cur (x ++ rest)
  = PyStr.split_sep_go sep 0 (String.rev_app x cur) rest.
Proof.
  revert cur. induction x as [|c x IH]; intros cur; [done|].
  cbn [no_match_in]. intros [Hp Hx]%andb_true_iff.
  apply negb_true_iff in Hp. rewrite string_app_cons in *.
  cbn [PyStr.split_sep_go]. rewrite Hp. by rewrite IH.
Qed.

Lemma prefix_app_refl (sep rest : string) : String.prefix sep (sep ++ rest) = true.
Proof.
  induction sep as [|c sep IH]; [by destruct rest|].
  rewrite string_app_cons. simpl. by destruct (ascii_dec c c).
Qed.

Lemma split_sep_go_skip sep y rest cur :
  PyStr.split_sep_go sep (String.length y) cur (y ++ rest)
  = PyStr.split_sep_go sep 0 cur rest.
Proof.
  induction y as [|c y IH]; [done|]. rewrite string_app_cons. exact IH.
Qed.

Lemma split_sep_go_match sep rest cur :
  sep ≠ "" →
  PyStr.split_sep_go sep 0 cur (sep ++ rest)
  = String.rev cur :: PyStr.split_sep_go sep 0 "" rest.
Proof.
  intros Hsep. pose proof (prefix_app_refl sep rest) as Hp.
  destruct sep as [|c sep]; [done|]. rewrite string_app_cons in *.
  cbn [PyStr.split_sep_go]. rewrite Hp. f_equal.
  replace (String.length (String c sep) - 1)%nat with (String.length sep)
    by (simpl; lia).
  apply split_sep_go_skip.
Qed.

Lemma split_sep_go_head sep s skip cur :
  ∃ y more, PyStr.split_sep_go sep skip cur s = (String.rev cur ++ y) :: more.
Proof.
  revert skip cur. induction s as [|c s IH]; intros skip cur.
  - exists "", []. simpl. by rewrite string_app_nil_r.
  - cbn [PyStr.split_sep_go]. destruct skip as [|k]; [|apply IH].
    destruct (String.prefix sep (String c s)).
    + eexists "", _. by rewrite string_app_nil_r.
    + destruct (IH 0%nat (String c cur)) as (y & more & ->).
      exists (String c y), more. f_equal.
      unfold String.rev. simpl. rewrite !rev_app_app. reflexivity.
Qed.

Lemma prefix_app_space sep x rest :
  all_chars (λ c, negb (Ascii.eqb c " ")) sep = true →
  String.prefix sep (x ++ String " " rest) = String.prefix sep x.
Proof.
  revert x. induction sep as [|a sep IH]; intros x Hsep.
  - by destruct x.
  - simpl in Hsep. apply andb_true_iff in Hsep as [Ha Hsep].
    destruct x as [|b x].
    + simpl. destruct (ascii_dec a " ") as [->|]; [done|done].
    + rewrite string_app_cons. simpl. destruct (ascii_dec a b); [|done].
      by apply IH.
Qed.

Lemma no_match_in_text sep h rest :
  marker sep → PyStr.contains sep h = false →
  no_match_in sep (h ++ " ") rest = true.
Proof.
  intros [Hne Hsp]. induction h as [|c h IH].
  - intros _. destruct sep as [|a sep]; [done|].
    simpl in Hsp. apply andb_true_iff in Hsp as [Ha _].
    simpl. destruct (ascii_dec a " ") as [->|]; [done|done].
  - intros H. cbn [PyStr.contains] in H. apply orb_false_iff in H as [Hp Hc].
    rewrite string_app_cons. cbn [no_match_in].
    rewrite IH by done. rewrite andb_true_r.
    rewrite <- string_app_cons, string_app_assoc.
    change (" " ++ rest) with (String " " rest).
    rewrite prefix_app_space by done.
    by rewrite Hp.
Qed.

Lemma no_match_in_app sep a b rest :
  no_match_in sep (a ++ b) rest
  = no_match_in sep a (b ++ rest) && no_match_in sep b rest.
Proof.
  induction a as [|c a IH]; [done|].
  rewrite !string_app_cons. cbn [no_match_in].
  rewrite IH, <- !string_app_cons, string_app_assoc.
  by rewrite andb_assoc.
Qed.

Lemma lstrip_app_space (x : string) :
  PyStr.lstrip (x ++ " ")
  = if String.eqb (PyStr.lstrip x) "" then "" else PyStr.lstrip x ++ " ".
Proof.
  induction x as [|c x IH]; [done|].
  rewrite string_app_cons. simpl. destruct (PyStr.is_space c); [exact IH|].
  by rewrite string_app_cons.
Qed.

Lemma rev_app_append (a b acc : string) :
  String.rev_app (a ++ b) acc = String.rev_app b (String.rev_app a acc).
Proof.
  revert acc. induction a as [|c a IH]; intros acc; [done|].
  rewrite string_app_cons. simpl. by rewrite IH.
Qed.

Lemma strip_app_space (x : string) : PyStr.strip (x ++ " ") = PyStr.strip x.
Proof.
  unfold PyStr.strip. rewrite lstrip_app_space.
  destruct (String.eqb_spec (PyStr.lstrip x) "") as [->|Hne]; [done|].
  unfold String.rev at 2. by rewrite rev_app_append.
Qed.

Lemma strip_padded (x : string) : PyStr.strip (String " " (x ++ " ")) = PyStr.strip x.
Proof. rewrite <- string_app_cons, strip_app_space. reflexivity. Qed.

Lemma split_sep_go_nonempty sep s skip cur : PyStr.split_sep_go sep skip cur s ≠ [].
Proof. by destruct (split_sep_go_head sep s skip cur) as (y & more & ->). Qed.

(** The text of a stored record, split at its markers. *)
Lemma page_content_parts (h u t : string) :
  PyStr.contains "Summary:" h = false →
  PyStr.contains "Summary:" u = false →
  ∃ y more,
    PyStr.split_sep "Summary:"
      ("Headline: " ++ h ++ " Summary: " ++ u ++ " Ticker: " ++ t)
    = ("Headline: " ++ h ++ " ")
        :: ((String " " (u ++ " ") ++ "Ticker: ") ++ y) :: more.
Proof.
  intros Hh Hu. unfold PyStr.split_sep.
  assert (marker "Summary:") as Hm by (split; done).
  change ("Headline: " ++ h ++ " Summary: " ++ u ++ " Ticker: " ++ t)
    with (("Headline:" ++ " ") ++ h ++ " "
            ++ "Summary:" ++ String " " (u ++ " " ++ "Ticker:" ++ " " ++ t)).
  rewrite <- (string_app_assoc h " "), <- string_app_assoc.
  rewrite split_sep_go_no_match.
  2: { rewrite no_match_in_app. apply andb_true_iff.
       split; by apply no_match_in_text. }
  rewrite split_sep_go_match by done.
  fold (String.rev (("Headline:" ++ " ") ++ h ++ " ")).
  rewrite string_rev_involutive.
  change (String " " (u ++ " " ++ "Ticker:" ++ " " ++ t))
    with ((" " ++ u ++ " " ++ "Ticker:" ++ " " ++ t)).
  rewrite <- (string_app_assoc "Ticker:" " "), <- (string_app_assoc u " ").
  rewrite <- (string_app_assoc (u ++ " ")).
  change (" " ++ ((u ++ " ") ++ "Ticker:" ++ " ") ++ t)
    with ((String " " ((u ++ " ") ++ "Ticker:" ++ " ")) ++ t).
  rewrite split_sep_go_no_match.
  2: { cbn [no_match_in]. rewrite string_app_cons. simpl.
       rewrite no_match_in_app. apply andb_true_iff.
       split; by apply no_match_in_text. }
  destruct (split_sep_go_head "Summary:" t 0
              (String.rev_app (String " " ((u ++ " ") ++ "Ticker:" ++ " ")) ""))
    as (y & more & ->).
  exists y, more. fold (String.rev (String " " ((u ++ " ") ++ "Ticker:" ++ " "))).
  rewrite string_rev_involutive. f_equal.
Qed.

Lemma replace_headline (h : string) :
  PyStr.contains "Headline:" h = false →
  PyStr.replace "Headline:" "" ("Headline: " ++ h ++ " ")
  = String " " (h ++ " ").
Proof.
  intros Hh. unfold PyStr.replace, PyStr.split_sep.
  change ("Headline: " ++ h ++ " ")
    with ("Headline:" ++ String " " (h ++ " ")).
  rewrite split_sep_go_match by done.
  rewrite <- (string_app_nil_r (String " " (h ++ " "))) at 1.
  rewrite split_sep_go_no_match.
  2: { cbn [no_match_in]. rewrite string_app_cons. simpl.
       apply no_match_in_text; [by split|done]. }
  cbn [PyStr.split_sep_go].
  fold (String.rev (String " " (h ++ " "))). by rewrite string_rev_involutive.
Qed.

Lemma summary_piece (u y : string) :
  PyStr.contains "Ticker:" u = false →
  nth 0 (PyStr.split_sep "Ticker:" ((String " " (u ++ " ") ++ "Ticker: ") ++ y)) ""
  = String " " (u ++ " ").
Proof.
  intros Hu. unfold PyStr.split_sep.
  change (String " " (u ++ " ") ++ "Ticker: ")
    with (String " " (u ++ " ") ++ "Ticker:" ++ " ").
  rewrite !string_app_assoc.
  rewrite split_sep_go_no_match.
  2: { cbn [no_match_in]. rewrite string_app_cons. simpl.
       apply no_match_in_text; [by split|done]. }
  rewrite split_sep_go_match by done. cbn [nth].
  fold (String.rev (String " " (u ++ " "))). by rewrite string_rev_involutive.
Qed.

(** X27.  What the ingestion writes, the answer path reads back.  For a
    stored record whose headline holds neither "Headline:" nor "Summary:"
    and whose summary holds neither "Summary:" nor "Ticker:", the news
    item built from its vector document has the record's headline and
    summary, stripped of surrounding white space (the placeholder text
    when nothing is left), its ticker and, as source, its url. *)
Theorem news_item_of_stored_document (dm : DocumentModel) :
  PyStr.contains "Headline:" (dm_headline dm) = false →
  PyStr.contains "Summary:" (dm_headline dm) = false →
  PyStr.contains "Summary:" (dm_summary dm) = false →
  PyStr.contains "Ticker:" (dm_summary dm) = false →
  news_item_of_document (vector_document dm)
  = {[ "headline" :=
         VStr (or_str (PyStr.strip (dm_headline dm)) "No headline available");
       "summary" :=
         VStr (or_str (PyStr.strip (dm_summary dm)) "No summary available");
       "ticker" := VStr (dm_ticker dm);
       "source" := VStr (dm_url dm);
       "relevance_score" := VFloat 0.0%Q ]}.
Proof.
  intros Hh1 Hh2 Hu1 Hu2.
  unfold news_item_of_document, vector_document.
  cbn [page_content metadata doc_relevance_score].
  rewrite lookup_insert_ne by done. rewrite lookup_singleton_eq.
  rewrite lookup_insert_eq. cbn [default].
  replace (PyStr.contains "Headline:" _) with true.
  2: { symmetry. cbn [PyStr.contains]. apply orb_true_iff. left.
       apply (prefix_app_refl "Headline:"). }
  destruct (page_content_parts (dm_headline dm) (dm_summary dm) (dm_ticker dm))
    as (y & more & ->); [done|done|].
  cbn [length Nat.leb nth].
  by rewrite replace_headline, summary_piece, !strip_padded.
Qed.

Lemma news_item_of_stored_document_witness :
  news_item_of_document (vector_document long_headline)
  = {[ "headline" := VStr "Apple: record quarter";
       "summary" := VStr "Ticker AAPL up 3%";
       "ticker" := VStr "AAPL";
       "source" := VStr "http://news/apple";
       "relevance_score" := VFloat 0.0%Q ]}.
Proof.
  apply (news_item_of_stored_document long_headline); reflexivity.
Defined.
